(** * SSH bastion menu (bastion/ssh_menu.py): configuration validation,
      credential normalisation and the three-level selection loop.

    The Python program is embedded shallowly.  A decoded JSON document is a
    value of [json]; Python's dynamic operations on such values ([in],
    subscripting, [.get], [len], truthiness, [isinstance]) are total Rocq
    functions into [result], whose [Raise] carries the exception the
    interpreter would raise.  The interactive loops of [SSHMenu] become a
    step function over an explicit picture of the call stack, fed with the
    answers of [getmaxyx], of the terminal to each [addstr], and of
    [getch]; a KeyboardInterrupt is a signal, not a key, and is left out. *)

From Stdlib Require Import ZArith List String Ascii Bool Lia Floats DecimalString.
From Stdlib Require Import DecimalNat.
Import ListNotations.
Set Warnings "-register-all".
Local Open Scope Z_scope.

(** ** Python values and their dynamic operations *)

Module Py.

(** The exceptions the modelled code can raise: by itself, or out of
    [pathlib] (RuntimeError, OSError) and of [addstr] (TypeError,
    ValueError, and [curses.error], which the code catches). *)
Inductive exn : Type :=
| TypeError
| KeyError
| IndexError
| AttributeError
| RuntimeError
| OSError
| ValueError
| CursesError.

Inductive result (A : Type) : Type :=
| Return (a : A)
| Raise (e : exn).

Arguments Return {A} a.
Arguments Raise {A} e.

Definition bind {A B : Type} (m : result A) (k : A -> result B) : result B :=
  match m with
  | Return a => k a
  | Raise e => Raise e
  end.

(** What [json.load] builds: [None], [bool], [int], [float], [str], [list]
    and [dict] with string keys (the items of a dict in insertion order).
    A [str] is a [string], one [ascii] for each of its characters, so
    [len], [ljust] and indexing count characters; a character beyond the
    8-bit range is outside the model.  The arrows and icons of the
    program's own texts are written as their UTF-8 bytes; such a text is
    handed to the terminal and never measured. *)
Inductive json : Type :=
| JNull
| JBool (b : bool)
| JInt (n : Z)
| JFloat (f : float)
| JStr (s : string)
| JList (l : list json)
| JObj (items : list (string * json)).

Fixpoint lookup (k : string) (items : list (string * json)) : option json :=
  match items with
  | [] => None
  | (k', v) :: rest => if String.eqb k k' then Some v else lookup k rest
  end.

Definition keys (items : list (string * json)) : list string :=
  nodup string_dec (map fst items).

(** [needle in hay] on two [str]: substring search. *)
Fixpoint contains (needle hay : string) : bool :=
  if prefix needle hay then true
  else match hay with
       | EmptyString => false
       | String _ rest => contains needle rest
       end.

Definition is_str (k : string) (v : json) : bool :=
  match v with
  | JStr s => String.eqb k s
  | _ => false
  end.

(** [bool(v)] *)
Definition truthy (v : json) : bool :=
  match v with
  | JNull => false
  | JBool b => b
  | JInt n => negb (n =? 0)
  | JFloat f => negb (PrimFloat.eqb f PrimFloat.zero)
  | JStr s => negb (String.eqb s EmptyString)
  | JList l => match l with [] => false | _ => true end
  | JObj items => match items with [] => false | _ => true end
  end.

(** [v is None] *)
Definition is_none (v : json) : bool :=
  match v with
  | JNull => true
  | _ => false
  end.

(** [isinstance(v, int)]: [bool] is a subclass of [int]. *)
Definition isinstance_int (v : json) : bool :=
  match v with
  | JInt _ | JBool _ => true
  | _ => false
  end.

(** The number an [int] instance compares as ([True] is 1, [False] is 0). *)
Definition int_value (v : json) : Z :=
  match v with
  | JInt n => n
  | JBool true => 1
  | _ => 0
  end.

(** [k in v] for a [str] k. *)
Definition py_in (k : string) (v : json) : result bool :=
  match v with
  | JObj items => Return (match lookup k items with Some _ => true | None => false end)
  | JList l => Return (existsb (is_str k) l)
  | JStr s => Return (contains k s)
  | _ => Raise TypeError
  end.

(** [v[k]] for a [str] k. *)
Definition py_getitem (v : json) (k : string) : result json :=
  match v with
  | JObj items => match lookup k items with
                  | Some x => Return x
                  | None => Raise KeyError
                  end
  | _ => Raise TypeError
  end.

(** [v.get(k, default)] *)
Definition py_get (v : json) (k : string) (default : json) : result json :=
  match v with
  | JObj items => match lookup k items with
                  | Some x => Return x
                  | None => Return default
                  end
  | _ => Raise AttributeError
  end.

(** [l[i]] on a sequence, with Python's negative indices. *)
Definition seq_index {A : Type} (l : list A) (i : Z) : option A :=
  let n := Z.of_nat (List.length l) in
  if (0 <=? i) && (i <? n) then nth_error l (Z.to_nat i)
  else if (- n <=? i) && (i <? 0) then nth_error l (Z.to_nat (n + i))
  else None.

Definition chars (s : string) : list json :=
  map (fun c => JStr (String c EmptyString)) (list_ascii_of_string s).

(** [v[i]] for an [int] i. *)
Definition py_index (v : json) (i : Z) : result json :=
  match v with
  | JList l => match seq_index l i with
               | Some x => Return x
               | None => Raise IndexError
               end
  | JStr s => match seq_index (chars s) i with
              | Some x => Return x
              | None => Raise IndexError
              end
  | JObj _ => Raise KeyError
  | _ => Raise TypeError
  end.

(** [len(v)] *)
Definition py_len (v : json) : result Z :=
  match v with
  | JList l => Return (Z.of_nat (List.length l))
  | JStr s => Return (Z.of_nat (String.length s))
  | JObj items => Return (Z.of_nat (List.length (keys items)))
  | _ => Raise TypeError
  end.

(** The elements [for x in v] visits. *)
Definition py_iter (v : json) : result (list json) :=
  match v with
  | JList l => Return l
  | JStr s => Return (chars s)
  | JObj items => Return (map JStr (keys items))
  | _ => Raise TypeError
  end.

End Py.

Export Py.

Declare Scope py_scope.
Delimit Scope py_scope with py.
Notation "x <- m ;; k" := (bind m (fun x => k))
  (at level 61, m at next level, right associativity) : py_scope.
Notation "' p <- m ;; k" := (bind m (fun x => match x with p => k end))
  (at level 61, p pattern, m at next level, right associativity) : py_scope.
Local Open Scope py_scope.

(** ** The [SSHMenu] class *)

Section SSHMenu.

(** The collaborators the program consumes and does not implement.
    [expanduser p] is [str(Path(p).expanduser())], and [None] where the
    expansion raises RuntimeError (the home of [~user] is not known);
    [path_exists q] is [exists()] on an expanded path, and [None] where
    it raises OSError (a name too long, for one); [py_str v] is Python's
    rendering [str(v)] of a value inside an f-string. *)
Variable path_exists : string -> option bool.
Variable expanduser : string -> option string.
Variable py_str : json -> string.

Definition str_of_nat (n : nat) : string :=
  NilEmpty.string_of_uint (Nat.to_uint n).

(** *** validate_config *)

Definition net_prefix (idx : nat) : string :=
  ("Network [" ++ str_of_nat idx ++ "]")%string.

Definition srv_prefix (idx srv_idx : nat) : string :=
  (net_prefix idx ++ " Server [" ++ str_of_nat srv_idx ++ "]")%string.

Definition user_prefix (idx srv_idx user_idx : nat) : string :=
  (srv_prefix idx srv_idx ++ " User [" ++ str_of_nat user_idx ++ "]")%string.

Definition missing_field_msg (pre field : string) : string :=
  (pre ++ ": Missing required field '" ++ field ++ "'")%string.

Definition servers_not_array_msg (idx : nat) : string :=
  (net_prefix idx ++ ": 'servers' must be an array")%string.

Definition neither_msg (idx srv_idx : nat) : string :=
  (srv_prefix idx srv_idx ++ ": Must have either 'username' or 'users' field")%string.

Definition both_msg (idx srv_idx : nat) : string :=
  (srv_prefix idx srv_idx ++ ": Cannot have both 'username' and 'users' fields")%string.

Definition users_not_array_msg (idx srv_idx : nat) : string :=
  (srv_prefix idx srv_idx ++ ": 'users' must be an array")%string.

Definition users_empty_msg (idx srv_idx : nat) : string :=
  (srv_prefix idx srv_idx ++ ": 'users' array cannot be empty")%string.

Definition key_not_found_msg (pre path : string) : string :=
  (pre ++ ": SSH key not found at '" ++ path ++ "'")%string.

Definition invalid_port_msg (idx srv_idx : nat) (port : json) : string :=
  (srv_prefix idx srv_idx ++ ": Invalid port '" ++ py_str port ++ "' (must be 1-65535)")%string.

(** [for idx, x in enumerate(l): body], the messages appended to [errors]
    by each round in order; an exception in one round ends the loop. *)
Fixpoint for_enumerate (body : nat -> json -> result (list string))
    (idx : nat) (l : list json) : result (list string) :=
  match l with
  | [] => Return []
  | x :: rest =>
      errs <- body idx x ;;
      more <- for_enumerate body (S idx) rest ;;
      Return (errs ++ more)
  end.

(** Lines 97-100 and 110-112, the same three statements on a user and on a
    legacy server: [Path(...)] of anything but a [str] is a TypeError. *)
Definition key_path_errors (pre : string) (holder : json) : result (list string) :=
  has_key <- py_in "key_path" holder ;;
  if has_key then
    key_path <- py_getitem holder "key_path" ;;
    if truthy key_path then
      match key_path with
      | JStr p =>
          match expanduser p with
          | None => Raise RuntimeError
          | Some expanded =>
              match path_exists expanded with
              | None => Raise OSError
              | Some true => Return []
              | Some false => Return [key_not_found_msg pre p]
              end
          end
      | _ => Raise TypeError
      end
    else Return []
  else Return [].

(** Lines 92-100: one round of the loop over [server['users']]. *)
Definition validate_user (idx srv_idx user_idx : nat) (user : json)
    : result (list string) :=
  let pre := user_prefix idx srv_idx user_idx in
  has_username <- py_in "username" user ;;
  keys_errs <- key_path_errors pre user ;;
  Return ((if has_username then [] else [missing_field_msg pre "username"])
          ++ keys_errs).

(** Lines 85-100. *)
Definition validate_users (idx srv_idx : nat) (server : json)
    : result (list string) :=
  users <- py_getitem server "users" ;;
  match users with
  | JList [] => Return [users_empty_msg idx srv_idx]
  | JList us => for_enumerate (validate_user idx srv_idx) 0%nat us
  | _ => Return [users_not_array_msg idx srv_idx]
  end.

(** Lines 103-106. *)
Definition validate_port (idx srv_idx : nat) (server : json)
    : result (list string) :=
  has_port <- py_in "port" server ;;
  if has_port then
    port <- py_getitem server "port" ;;
    if is_none port then Return []
    else if negb (isinstance_int port)
            || negb ((1 <=? int_value port) && (int_value port <=? 65535))
    then Return [invalid_port_msg idx srv_idx port]
    else Return []
  else Return [].

(** Lines 68-112: one round of the loop over [network['servers']]. *)
Definition validate_server (idx srv_idx : nat) (server : json)
    : result (list string) :=
  let pre := srv_prefix idx srv_idx in
  has_ip <- py_in "ip" server ;;
  has_username <- py_in "username" server ;;
  has_users <- py_in "users" server ;;
  users_errs <- (if has_users then validate_users idx srv_idx server
                 else Return []) ;;
  port_errs <- validate_port idx srv_idx server ;;
  key_errs <- (if has_username then key_path_errors pre server
               else Return []) ;;
  Return ((if has_ip then [] else [missing_field_msg pre "ip"])
          ++ (if negb has_username && negb has_users
              then [neither_msg idx srv_idx] else [])
          ++ (if has_username && has_users
              then [both_msg idx srv_idx] else [])
          ++ users_errs ++ port_errs ++ key_errs).

Definition required_network_fields : list string := ["name"; "servers"]%string.

(** Lines 57-59. *)
Fixpoint required_fields_errors (pre : string) (fields : list string)
    (network : json) : result (list string) :=
  match fields with
  | [] => Return []
  | field :: rest =>
      present <- py_in field network ;;
      more <- required_fields_errors pre rest network ;;
      Return ((if present then [] else [missing_field_msg pre field]) ++ more)
  end.

(** Lines 54-112: one round of the loop over [config['networks']]. *)
Definition validate_network (idx : nat) (network : json) : result (list string) :=
  field_errs <- required_fields_errors (net_prefix idx) required_network_fields network ;;
  has_servers <- py_in "servers" network ;;
  if has_servers then
    servers <- py_getitem network "servers" ;;
    match servers with
    | JList srvs =>
        srv_errs <- for_enumerate (validate_server idx) 0%nat srvs ;;
        Return (field_errs ++ srv_errs)
    | _ => Return (field_errs ++ [servers_not_array_msg idx])
    end
  else Return field_errs.

Definition validate_config (config : json) : result (list string) :=
  match config with
  | JObj items =>
      match lookup "networks" items with
      | None => Return ["Missing 'networks' key in config"%string]
      | Some (JList networks) => for_enumerate validate_network 0%nat networks
      | Some _ => Return ["'networks' must be an array"%string]
      end
  | _ => Return ["Config must be a JSON object"%string]
  end.

(** *** get_port, normalize_server_format, get_auth_method_display *)

Definition get_port (server : json) : result json :=
  port <- py_get server "port" (JInt 22) ;;
  if negb (isinstance_int port)
     || negb ((1 <=? int_value port) && (int_value port <=? 65535))
  then Return (JInt 22)
  else Return port.

(** The dict [server_info] of [normalize_server_format]. *)
Record server_info : Type := {
  ip : json;
  description : json;
  port : json
}.

Definition normalize_server_format (server : json) : result (server_info * json) :=
  ip_v <- py_getitem server "ip" ;;
  description_v <- py_get server "description" (JStr "N/A") ;;
  port_v <- get_port server ;;
  let info := {| ip := ip_v; description := description_v; port := port_v |} in
  has_users <- py_in "users" server ;;
  if has_users then
    users <- py_getitem server "users" ;;
    Return (info, users)
  else
    username <- py_getitem server "username" ;;
    key_path <- py_get server "key_path" JNull ;;
    user_description <- py_get server "description" (JStr "Default user") ;;
    Return (info, JList [JObj [("username"%string, username);
                               ("key_path"%string, key_path);
                               ("description"%string, user_description)]]).

Inductive auth_method : Type :=
| KEY
| PASSWORD.

Definition get_auth_method_display (user : json)
    : result (auth_method * option string) :=
  key_path <- py_get user "key_path" JNull ;;
  if truthy key_path then
    match key_path with
    | JStr p =>
        match expanduser p with
        | None => Raise RuntimeError
        | Some expanded_path => Return (KEY, Some expanded_path)
        end
    | _ => Raise TypeError
    end
  else Return (PASSWORD, None).

(** *** connect_ssh *)

(** What the selection loop lets the outside world see: a screen it has
    prepared, and a session [connect_ssh] hands to the external process
    ([subprocess.run(ssh_command)]; whatever that call raises is caught
    there, and the acknowledgement is read with [input], not [getch]). *)
Definition ssh_argv (info : server_info) (username : json)
    (auth : auth_method) (key_info : option string) : list string :=
  ["ssh"; "-p"; py_str (port info)]%string
  ++ match auth with
     | KEY => ["-i"%string; match key_info with
                            | Some k => k
                            | None => py_str JNull
                            end]
     | PASSWORD => []
     end
  ++ [(py_str username ++ "@" ++ py_str (ip info))%string].

Definition connect_ssh (info : server_info) (user : json) : result (list string) :=
  username <- py_getitem user "username" ;;
  user_desc <- py_get user "description" (JStr "N/A") ;;
  ' (auth, key_info) <- get_auth_method_display user ;;
  Return (ssh_argv info username auth key_info).

(** *** Screens

    A draw is modelled by what it reads, computes and writes, in the
    order of the code: the rows that fit the terminal height, the values
    read from the inventory for each row with the exceptions those reads
    raise, and the calls of [addstr].  What a draw returns is the screen
    it has prepared: its title, the rows it went through with the row of
    the cursor marked, and its footer. *)

Inductive row : Type :=
| NetworkRow (selected : bool) (name cidr : string) (server_count : Z)
| ServerRow (selected : bool) (info : server_info) (user_count : Z)
    (single_username : option json)
| UserRow (selected : bool) (username user_desc : json) (auth : auth_method)
    (key_info : option string).

Inductive view : Type :=
| Menu (title : string) (rows : list row) (footer : string)
| Notice (title : string) (msg : string) (footer : string).

Inductive event : Type :=
| Drawn (v : view)
| Connecting (info : server_info) (user : json) (ssh_command : list string).

(** A NUL among the characters of a text. *)
Fixpoint has_nul (s : string) : bool :=
  match s with
  | EmptyString => false
  | String c rest => Ascii.eqb c Ascii.zero || has_nul rest
  end.

(** The terminal of one round: whether it takes the write of a text at
    line [y], column [x], or refuses it (the place is outside the window,
    the text runs over its last cell). *)
Definition terminal : Type := Z -> Z -> string -> bool.

(** [stdscr.addstr(y, x, text, attr)].  The text is converted before the
    screen is touched: a value that is not a [str] is a TypeError, a
    [str] with a NUL a ValueError (the locale is taken to encode every
    other text).  Then the terminal takes the write, or [addstr] raises
    [curses.error]. *)
Definition addstr (takes : terminal) (y x : Z) (text : json) : result unit :=
  match text with
  | JStr s =>
      if has_nul s then Raise ValueError
      else if takes y x s then Return tt
      else Raise CursesError
  | _ => Raise TypeError
  end.

(** [try: block] with [except curses.error: pass]. *)
Definition except_curses (block : result unit) : result unit :=
  match block with
  | Raise CursesError => Return tt
  | _ => block
  end.

(** Lines 246-282.  Each of the three writes of [draw_header] stands under
    a [try] of its own, so the title is handed to [addstr] in every draw
    and what the terminal answers changes nothing: the one exception
    that leaves [draw_header] is the ValueError of a title with a NUL
    (the title is an f-string, the borders and the icon have no NUL).
    [draw_footer] (lines 284-293) and the notice of the no-servers branch
    (lines 364-369) write a constant text in a [try] of their own, and
    raise nothing. *)
Definition draw_header (title : string) : result unit :=
  if has_nul title then Raise ValueError else Return tt.

Fixpoint spaces (n : nat) : string :=
  match n with
  | O => EmptyString
  | S m => String " " (spaces m)
  end.

(** [v.ljust(width)]: only [str] has the method. *)
Definition py_ljust (v : json) (width : nat) : result string :=
  match v with
  | JStr s => Return (s ++ spaces (width - String.length s))%string
  | _ => Raise AttributeError
  end.

(** The first write of a row: the arrow on the row of the cursor. *)
Definition cursor_mark (selected : bool) : string :=
  if selected then "→"%string else " "%string.

(** Lines 307-332: the rounds of the loop over the networks, each one
    reading its network, then writing its line. *)
Fixpoint network_rows (takes : terminal) (height current_row idx : Z)
    (networks : list json) : result (list row) :=
  match networks with
  | [] => Return []
  | network :: rest =>
      let y_pos := 4 + idx in
      if y_pos >=? height - 3 then Return []
      else
        name_v <- py_getitem network "name" ;;
        name <- py_ljust name_v 15 ;;
        cidr_v <- py_get network "cidr" (JStr "N/A") ;;
        cidr <- py_ljust cidr_v 18 ;;
        servers <- py_get network "servers" (JList []) ;;
        server_count <- py_len servers ;;
        let info := (py_str (JInt server_count) ++ " server"
                     ++ (if (server_count =? 1)%Z then EmptyString else "s"))%string in
        let line := ("  " ++ name ++ " (" ++ cidr ++ ") - " ++ info)%string in
        _ <- except_curses
               (_ <- addstr takes y_pos 2 (JStr (cursor_mark (idx =? current_row))) ;;
                addstr takes y_pos 4 (JStr line)) ;;
        more <- network_rows takes height current_row (idx + 1) rest ;;
        Return (NetworkRow (idx =? current_row) name cidr server_count :: more)
  end.

(** [port != 22] on what [get_port] answers. *)
Definition is_22 (port : json) : bool :=
  match port with
  | JInt n => n =? 22
  | JFloat f => PrimFloat.eqb f 22%float
  | _ => false
  end.

(** Lines 383-427. *)
Fixpoint server_rows (takes : terminal) (height current_row idx : Z)
    (servers : list json) : result (list row) :=
  match servers with
  | [] => Return []
  | server :: rest =>
      let y_pos := 4 + idx * 3 in
      if y_pos >=? height - 4 then Return []
      else
        ' (info, users) <- normalize_server_format server ;;
        let port_display := (if is_22 (port info) then EmptyString
                             else ":" ++ py_str (port info))%string in
        user_count <- py_len users ;;
        single <- (if user_count =? 1 then
                     user <- py_index users 0 ;;
                     username <- py_getitem user "username" ;;
                     Return (Some username)
                   else Return None) ;;
        let user_display := match single with
                            | Some username => ("User: " ++ py_str username)%string
                            | None => (py_str (JInt user_count)
                                       ++ " users available")%string
                            end in
        let user_icon := if user_count >? 1 then "👥"%string else "👤"%string in
        _ <- except_curses
               (_ <- addstr takes y_pos 2 (JStr (cursor_mark (idx =? current_row))) ;;
                _ <- addstr takes y_pos 4 (JStr (py_str (ip info) ++ port_display)) ;;
                ip_len <- py_len (ip info) ;;
                _ <- addstr takes y_pos
                       (4 + ip_len + Z.of_nat (String.length port_display) + 2)
                       (JStr ("- " ++ py_str (description info))) ;;
                addstr takes (y_pos + 1) 4
                  (JStr ("    " ++ user_icon ++ " " ++ user_display))) ;;
        more <- server_rows takes height current_row (idx + 1) rest ;;
        Return (ServerRow (idx =? current_row) info user_count single :: more)
  end.

(** Lines 499-506: the third line of a user, with a long key path cut to
    its last 47 characters. *)
Definition key_display (key_info : string) : string :=
  if (String.length key_info <? 50)%nat then key_info
  else ("..." ++ substring (String.length key_info - 47) 47 key_info)%string.

Definition auth_name (auth : auth_method) : string :=
  match auth with
  | KEY => "KEY"
  | PASSWORD => "PASSWORD"
  end.

Definition auth_text (auth : auth_method) (key_info : option string) : string :=
  ("  " ++ auth_name auth
   ++ match key_info with
      | Some (String c rest) => " (" ++ key_display (String c rest) ++ ")"
      | _ => EmptyString
      end)%string.

(** Lines 474-513.  The description is written as it is stored. *)
Fixpoint user_rows (takes : terminal) (height current_row idx : Z)
    (users : list json) : result (list row) :=
  match users with
  | [] => Return []
  | user :: rest =>
      let y_pos := 6 + idx * 3 in
      if y_pos >=? height - 4 then Return []
      else
        username <- py_getitem user "username" ;;
        user_desc <- py_get user "description" (JStr "No description") ;;
        ' (auth, key_info) <- get_auth_method_display user ;;
        _ <- except_curses
               (_ <- addstr takes y_pos 2 (JStr (cursor_mark (idx =? current_row))) ;;
                _ <- addstr takes y_pos 4 (JStr ("👤 " ++ py_str username)) ;;
                _ <- addstr takes (y_pos + 1) 7 user_desc ;;
                addstr takes (y_pos + 2) 7 (JStr (auth_text auth key_info))) ;;
        more <- user_rows takes height current_row (idx + 1) rest ;;
        Return (UserRow (idx =? current_row) username user_desc auth key_info :: more)
  end.

(** *** The selection loops

    A state is the program blocked at the top of a loop round (or of the
    no-servers branch), with the rounds of its callers suspended below it:
    [run_user_selection] is called from a round of [run_server_selection],
    itself called from a round of [run_network_selection]. *)

Record network_frame : Type := {
  networks : json;
  network_row : Z
}.

Record server_frame : Type := {
  network : json;
  servers : json;
  server_row : Z
}.

Record user_frame : Type := {
  info : server_info;
  users : json;
  user_row : Z
}.

Inductive state : Type :=
| NetworkList (nf : network_frame)
| NoServers (nf : network_frame) (net : json)
| ServerList (nf : network_frame) (sf : server_frame)
| UserList (nf : network_frame) (sf : server_frame) (uf : user_frame)
| Exit.

(** [curses.KEY_UP], [curses.KEY_DOWN], [ord('\n')], and Q, q or ESC. *)
Definition KEY_UP : Z := 259.
Definition KEY_DOWN : Z := 258.
Definition ENTER : Z := 10.

Definition is_quit (key : Z) : bool :=
  (key =? 113) || (key =? 81) || (key =? 27).

(** [key == curses.KEY_DOWN and current_row < len(items) - 1] *)
Definition moves_down (key current_row : Z) (items : json) : result bool :=
  if key =? KEY_DOWN then
    len <- py_len items ;;
    Return (current_row <? len - 1)
  else Return false.

(** Lines 355-358: the call of [run_server_selection] up to its first
    blocking read. *)
Definition enter_server_selection (nf : network_frame) (net : json)
    : result state :=
  srvs <- py_get net "servers" (JList []) ;;
  if negb (truthy srvs) then Return (NoServers nf net)
  else Return (ServerList nf {| network := net; servers := srvs; server_row := 0 |}).

(** Lines 342-351. *)
Definition network_key (nf : network_frame) (key : Z)
    : result (state * list event) :=
  let current_row := network_row nf in
  if (key =? KEY_UP) && (current_row >? 0) then
    Return (NetworkList {| networks := networks nf;
                           network_row := current_row - 1 |}, [])
  else
    down <- moves_down key current_row (networks nf) ;;
    if down then
      Return (NetworkList {| networks := networks nf;
                             network_row := current_row + 1 |}, [])
    else if key =? ENTER then
      net <- py_index (networks nf) current_row ;;
      st <- enter_server_selection nf net ;;
      Return (st, [])
    else if is_quit key then Return (Exit, [])
    else Return (NetworkList nf, []).

(** Lines 437-452. *)
Definition server_key (nf : network_frame) (sf : server_frame) (key : Z)
    : result (state * list event) :=
  let current_row := server_row sf in
  if (key =? KEY_UP) && (current_row >? 0) then
    Return (ServerList nf {| network := network sf; servers := servers sf;
                             server_row := current_row - 1 |}, [])
  else
    down <- moves_down key current_row (servers sf) ;;
    if down then
      Return (ServerList nf {| network := network sf; servers := servers sf;
                               server_row := current_row + 1 |}, [])
    else if key =? ENTER then
      server <- py_index (servers sf) current_row ;;
      ' (inf, usrs) <- normalize_server_format server ;;
      count <- py_len usrs ;;
      if count =? 1 then
        user <- py_index usrs 0 ;;
        cmd <- connect_ssh inf user ;;
        Return (ServerList nf sf, [Connecting inf user cmd])
      else
        Return (UserList nf sf {| info := inf; users := usrs; user_row := 0 |}, [])
    else if is_quit key then Return (NetworkList nf, [])
    else Return (ServerList nf sf, []).

(** Lines 523-531. *)
Definition user_key (nf : network_frame) (sf : server_frame) (uf : user_frame)
    (key : Z) : result (state * list event) :=
  let current_row := user_row uf in
  if (key =? KEY_UP) && (current_row >? 0) then
    Return (UserList nf sf {| info := info uf; users := users uf;
                              user_row := current_row - 1 |}, [])
  else
    down <- moves_down key current_row (users uf) ;;
    if down then
      Return (UserList nf sf {| info := info uf; users := users uf;
                                user_row := current_row + 1 |}, [])
    else if key =? ENTER then
      user <- py_index (users uf) current_row ;;
      cmd <- connect_ssh (info uf) user ;;
      Return (UserList nf sf uf, [Connecting (info uf) user cmd])
    else if is_quit key then Return (ServerList nf sf, [])
    else Return (UserList nf sf uf, []).

(** What one key does to a blocked program. *)
Definition handle_key (st : state) (key : Z) : result (state * list event) :=
  match st with
  | NetworkList nf => network_key nf key
  | NoServers nf _ => Return (NetworkList nf, [])
  | ServerList nf sf => server_key nf sf key
  | UserList nf sf uf => user_key nf sf uf key
  | Exit => Return (Exit, [])
  end.

(** The screen a round prepares before it reads its key. *)
Definition draw (st : state) (height : Z) (takes : terminal)
    : result (option view) :=
  match st with
  | NetworkList nf =>
      _ <- draw_header "SELECT NETWORK ZONE" ;;
      nets <- py_iter (networks nf) ;;
      rows <- network_rows takes height (network_row nf) 0 nets ;;
      Return (Some (Menu "SELECT NETWORK ZONE" rows
                         "↑/↓: Navigate | ENTER: Select | Q: Quit"))
  | NoServers _ net =>
      name <- py_getitem net "name" ;;
      _ <- draw_header (py_str name ++ " Network") ;;
      Return (Some (Notice (py_str name ++ " Network")
                           "No servers configured in this network"
                           "Press any key to return..."))
  | ServerList _ sf =>
      name <- py_getitem (network sf) "name" ;;
      _ <- draw_header ("SELECT SERVER - " ++ py_str name ++ " Network") ;;
      srvs <- py_iter (servers sf) ;;
      rows <- server_rows takes height (server_row sf) 0 srvs ;;
      Return (Some (Menu ("SELECT SERVER - " ++ py_str name ++ " Network") rows
                         "↑/↓: Navigate | ENTER: Select | Q: Back"))
  | UserList _ _ uf =>
      _ <- draw_header ("SELECT USER - " ++ py_str (ip (info uf))) ;;
      _ <- except_curses
             (_ <- addstr takes 4 4 (JStr "Server: ") ;;
              addstr takes 4 12
                (JStr (py_str (ip (info uf)) ++ " - "
                       ++ py_str (description (info uf))))) ;;
      usrs <- py_iter (users uf) ;;
      rows <- user_rows takes height (user_row uf) 0 usrs ;;
      Return (Some (Menu ("SELECT USER - " ++ py_str (ip (info uf))) rows
                         "↑/↓: Navigate | ENTER: Connect | Q: Back"))
  | Exit => Return None
  end.

(** One round: [getmaxyx] answers [height], the terminal answers the
    writes by [takes], [getch] answers [key]. *)
Record input : Type := {
  height : Z;
  takes : terminal;
  key : Z
}.

Definition step (st : state) (i : input) : result (state * list event) :=
  shown <- draw st (height i) (takes i) ;;
  ' (st', evs) <- handle_key st (key i) ;;
  Return (st', match shown with
               | Some v => Drawn v :: evs
               | None => evs
               end).

Fixpoint run_menu (st : state) (inputs : list input)
    : result (state * list event) :=
  match inputs with
  | [] => Return (st, [])
  | i :: rest =>
      ' (st', evs) <- step st i ;;
      ' (st'', evs') <- run_menu st' rest ;;
      Return (st'', evs ++ evs')
  end.

(** *** run *)

Inductive outcome : Type :=
| Rejected (errors : list string)
| Finished
| Blocked (st : state).

(** [run] on a configuration that [load_config] has parsed: exit status 1
    with the messages, exit status 0, or still reading keys when the
    given keys are used up; an exception leaves [run] as it was raised. *)
Definition run (config : json) (inputs : list input)
    : result (outcome * list event) :=
  errors <- validate_config config ;;
  match errors with
  | _ :: _ => Return (Rejected errors, [])
  | [] =>
      nets <- py_getitem config "networks" ;;
      ' (st, evs) <- run_menu (NetworkList {| networks := nets; network_row := 0 |})
                              inputs ;;
      Return (match st with
              | Exit => Finished
              | _ => Blocked st
              end, evs)
  end.

End SSHMenu.

(** ** Vocabulary of the statements *)

(** The server record validation meets at [network['servers'][srv_idx]] of
    [config['networks'][idx]]. *)
Definition server_at (config : json) (idx srv_idx : nat) : option json :=
  match config with
  | JObj items =>
      match lookup "networks" items with
      | Some (JList nets) =>
          match nth_error nets idx with
          | Some (JObj fields) =>
              match lookup "servers" fields with
              | Some (JList srvs) => nth_error srvs srv_idx
              | _ => None
              end
          | _ => None
          end
      | _ => None
      end
  | _ => None
  end.

(** The cursor [current_row] indexes a row of the list it moves over. *)
Definition in_range (items : json) (current_row : Z) : Prop :=
  exists len, py_len items = Return len /\ 0 <= current_row <= len - 1.

(** A user record whose [key_path], when there is one, is a string or null. *)
Definition user_record (user : json) : bool :=
  match user with
  | JObj items =>
      match lookup "username" items, lookup "key_path" items with
      | Some _, (None | Some JNull | Some (JStr _)) => true
      | _, _ => false
      end
  | _ => false
  end.

Definition or_default (v : option json) (default : json) : json :=
  match v with
  | Some x => x
  | None => default
  end.

(** The user [normalize_server_format] builds for a legacy server. *)
Definition legacy_user (items : list (string * json)) (username : json) : json :=
  JObj [("username"%string, username);
        ("key_path"%string, or_default (lookup "key_path" items) JNull);
        ("description"%string,
         or_default (lookup "description" items) (JStr "Default user"))].

(** The network validation meets at [config['networks'][idx]], and the
    user it meets at [server['users'][user_idx]] of a server record. *)
Definition network_at (config : json) (idx : nat) : option json :=
  match config with
  | JObj items =>
      match lookup "networks" items with
      | Some (JList nets) => nth_error nets idx
      | _ => None
      end
  | _ => None
  end.

Definition user_at (config : json) (idx srv_idx user_idx : nat) : option json :=
  match server_at config idx srv_idx with
  | Some (JObj items) =>
      match lookup "users" items with
      | Some (JList usrs) => nth_error usrs user_idx
      | _ => None
      end
  | _ => None
  end.

(** ['k' in record] *)
Definition has_key (k : string) (items : list (string * json)) : bool :=
  match lookup k items with
  | Some _ => true
  | None => false
  end.

(** What a validation without message has checked of a record: its
    [key_path] is absent, falsy, or a string that expands to the name of
    an existing file; its [port] is absent, null, or an [int] instance
    within 1-65535. *)
Definition key_checked (path_exists : string -> option bool)
    (expanduser : string -> option string)
    (items : list (string * json)) : bool :=
  match lookup "key_path" items with
  | None => true
  | Some (JStr s) =>
      String.eqb s EmptyString
      || match expanduser s with
         | Some expanded =>
             match path_exists expanded with
             | Some found => found
             | None => false
             end
         | None => false
         end
  | Some v => negb (truthy v)
  end.

Definition port_checked (items : list (string * json)) : bool :=
  match lookup "port" items with
  | None | Some JNull => true
  | Some v => isinstance_int v && (1 <=? int_value v) && (int_value v <=? 65535)
  end.

Definition user_checked (path_exists : string -> option bool)
    (expanduser : string -> option string) (user : json) : Prop :=
  py_in "username" user = Return true
  /\ forall items, user = JObj items -> key_checked path_exists expanduser items = true.

Definition server_checked (path_exists : string -> option bool)
    (expanduser : string -> option string)
    (items : list (string * json)) : Prop :=
  lookup "ip" items <> None
  /\ port_checked items = true
  /\ ((lookup "users" items = None
       /\ lookup "username" items <> None
       /\ key_checked path_exists expanduser items = true)
      \/ (lookup "username" items = None
          /\ exists u usrs,
               lookup "users" items = Some (JList (u :: usrs))
               /\ Forall (user_checked path_exists expanduser) (u :: usrs))).

(** No closing bracket among the characters of a string. *)
Fixpoint bracket_free (s : string) : bool :=
  match s with
  | EmptyString => true
  | String c rest => negb (Ascii.eqb c "]") && bracket_free rest
  end.

(** Keys that a selection loop tests for, and how deep in the calls a state
    is. *)
Definition is_bound (key : Z) : bool :=
  (key =? KEY_UP) || (key =? KEY_DOWN) || (key =? ENTER) || is_quit key.

Definition level (st : state) : nat :=
  match st with
  | Exit => 0
  | NetworkList _ => 1
  | NoServers _ _ | ServerList _ _ => 2
  | UserList _ _ _ => 3
  end.

Definition row_selected (r : row) : bool :=
  match r with
  | NetworkRow selected _ _ _ => selected
  | ServerRow selected _ _ _ => selected
  | UserRow selected _ _ _ _ => selected
  end.

(** Every cursor of a state, the suspended ones included, indexes a row. *)
Definition cursors_in_range (st : state) : Prop :=
  match st with
  | NetworkList nf | NoServers nf _ => in_range (networks nf) (network_row nf)
  | ServerList nf sf =>
      in_range (networks nf) (network_row nf)
      /\ in_range (servers sf) (server_row sf)
  | UserList nf sf uf =>
      in_range (networks nf) (network_row nf)
      /\ in_range (servers sf) (server_row sf)
      /\ in_range (users uf) (user_row uf)
  | Exit => True
  end.

(** What the selection loops rely on, as an invariant of their states: the
    lists they move over are lists of entries validation has passed, and
    each cursor indexes its list. *)
Definition server_passed (path_exists : string -> option bool)
    (expanduser : string -> option string) (py_str : json -> string)
    (server : json) : Prop :=
  exists idx srv_idx,
    validate_server path_exists expanduser py_str idx srv_idx server = Return [].

Definition network_passed (path_exists : string -> option bool)
    (expanduser : string -> option string) (py_str : json -> string)
    (net : json) : Prop :=
  exists fields srvs,
    net = JObj fields
    /\ lookup "servers" fields = Some (JList srvs)
    /\ Forall (server_passed path_exists expanduser py_str) srvs.

Definition network_frame_ok (path_exists : string -> option bool)
    (expanduser : string -> option string) (py_str : json -> string)
    (nf : network_frame) : Prop :=
  exists nets,
    networks nf = JList nets
    /\ Forall (network_passed path_exists expanduser py_str) nets
    /\ 0 <= network_row nf < Z.of_nat (List.length nets).

Definition server_frame_ok (path_exists : string -> option bool)
    (expanduser : string -> option string) (py_str : json -> string)
    (sf : server_frame) : Prop :=
  exists srvs,
    servers sf = JList srvs
    /\ Forall (server_passed path_exists expanduser py_str) srvs
    /\ 0 <= server_row sf < Z.of_nat (List.length srvs).

Definition user_frame_ok (uf : user_frame) : Prop :=
  exists usrs,
    users uf = JList usrs
    /\ 0 <= user_row uf < Z.of_nat (List.length usrs).

Definition menu_invariant (path_exists : string -> option bool)
    (expanduser : string -> option string) (py_str : json -> string)
    (st : state) : Prop :=
  match st with
  | NetworkList nf | NoServers nf _ => network_frame_ok path_exists expanduser py_str nf
  | ServerList nf sf =>
      network_frame_ok path_exists expanduser py_str nf
      /\ server_frame_ok path_exists expanduser py_str sf
  | UserList nf sf uf =>
      network_frame_ok path_exists expanduser py_str nf
      /\ server_frame_ok path_exists expanduser py_str sf
      /\ user_frame_ok uf
  | Exit => True
  end.

(** An inventory made of records that meets the schema validation
    enforces. *)
Definition is_record (v : json) : bool :=
  match v with
  | JObj _ => true
  | _ => false
  end.

Definition server_accepted (path_exists : string -> option bool)
    (expanduser : string -> option string) (server : json) : Prop :=
  exists items,
    server = JObj items
    /\ server_checked path_exists expanduser items
    /\ forall usrs, lookup "users" items = Some (JList usrs) ->
                    forallb is_record usrs = true.

Definition network_accepted (path_exists : string -> option bool)
    (expanduser : string -> option string) (net : json) : Prop :=
  exists fields srvs,
    net = JObj fields
    /\ lookup "name" fields <> None
    /\ lookup "servers" fields = Some (JList srvs)
    /\ Forall (server_accepted path_exists expanduser) srvs.

(** Inventories made of records: every network, server and user is an
    object, and every [key_path] is null or a string; a non-empty one has
    a home directory to expand to, and the filesystem answers for the
    expanded path. *)
Definition key_path_typed (path_exists : string -> option bool)
    (expanduser : string -> option string) (items : list (string * json)) : bool :=
  match lookup "key_path" items with
  | None | Some JNull => true
  | Some (JStr s) =>
      String.eqb s EmptyString
      || match expanduser s with
         | Some expanded =>
             match path_exists expanded with Some _ => true | None => false end
         | None => false
         end
  | Some _ => false
  end.

Definition user_typed (path_exists : string -> option bool)
    (expanduser : string -> option string) (user : json) : bool :=
  match user with
  | JObj items => key_path_typed path_exists expanduser items
  | _ => false
  end.

Definition server_typed (path_exists : string -> option bool)
    (expanduser : string -> option string) (server : json) : bool :=
  match server with
  | JObj items =>
      key_path_typed path_exists expanduser items
      && match lookup "users" items with
         | Some (JList usrs) => forallb (user_typed path_exists expanduser) usrs
         | _ => true
         end
  | _ => false
  end.

Definition network_typed (path_exists : string -> option bool)
    (expanduser : string -> option string) (net : json) : bool :=
  match net with
  | JObj items =>
      match lookup "servers" items with
      | Some (JList srvs) => forallb (server_typed path_exists expanduser) srvs
      | _ => true
      end
  | _ => false
  end.

Definition inventory_typed (path_exists : string -> option bool)
    (expanduser : string -> option string) (config : json) : bool :=
  match config with
  | JObj items =>
      match lookup "networks" items with
      | Some (JList nets) => forallb (network_typed path_exists expanduser) nets
      | _ => true
      end
  | _ => true
  end.

(** Inventories used as concrete inputs, and a filesystem and a renderer
    to run them with. *)
Module Sample.

Definition no_key_on_disk : string -> option bool := fun _ => Some false.
Definition every_key_on_disk : string -> option bool := fun _ => Some true.

(** [~] is /root and no other user has a home. *)
Definition home_is_root (p : string) : option string :=
  match p with
  | String "~" EmptyString => Some "/root"%string
  | String "~" (String "/" rest) => Some ("/root/" ++ rest)%string
  | String "~" _ => None
  | _ => Some p
  end.
Definition show (v : json) : string :=
  match v with
  | JNull => "None"
  | JBool true => "True"
  | JBool false => "False"
  | JInt n => NilZero.string_of_int (Z.to_int n)
  | JStr s => s
  | _ => "?"
  end.

(** [{"networks": []}] *)
Definition empty_inventory : json := JObj [("networks"%string, JList [])].

(** [{"networks": [7]}] *)
Definition number_for_network : json :=
  JObj [("networks"%string, JList [JInt 7])].

(** [{"ip": "10.0.0.5", "username": "root", "description": "Web server"}] *)
Definition described_legacy_server : json :=
  JObj [("ip"%string, JStr "10.0.0.5"); ("username"%string, JStr "root");
        ("description"%string, JStr "Web server")].

(** [{"ip": "10.0.0.5", "username": "root", "key_path": "~/.ssh/id_ed25519"}] *)
Definition legacy_server : json :=
  JObj [("ip"%string, JStr "10.0.0.5"); ("username"%string, JStr "root");
        ("key_path"%string, JStr "~/.ssh/id_ed25519")].

(** [{"ip": "10.0.0.5", "username": "root", "port": true}] *)
Definition true_port_server : json :=
  JObj [("ip"%string, JStr "10.0.0.5"); ("username"%string, JStr "root");
        ("port"%string, JBool true)].

Definition alice : json := JObj [("username"%string, JStr "a")].



Definition bob : json := JObj [("username"%string, JStr "b")].

(** [{"ip": "10.0.0.5", "users": [{"username": "a"}, {"username": "b"}]}] *)
Definition two_user_server : json :=
  JObj [("ip"%string, JStr "10.0.0.5"); ("users"%string, JList [alice; bob])].

(** [{"ip": "10.0.0.5", "username": "root", "users": [{"username": "a"}]}] *)
Definition both_shapes_server : json :=
  JObj [("ip"%string, JStr "10.0.0.5"); ("username"%string, JStr "root");
        ("users"%string, JList [alice])].

(** [{"ip": "10.0.0.5", "username": "root", "users": [5]}] *)
Definition numbered_user_server : json :=
  JObj [("ip"%string, JStr "10.0.0.5"); ("username"%string, JStr "root");
        ("users"%string, JList [JInt 5])].

(** [{"name": "lab", "servers": [...]}] inside [{"networks": [...]}] *)
Definition lab (srvs : list json) : json :=
  JObj [("name"%string, JStr "lab"); ("servers"%string, JList srvs)].

Definition inventory (nets : list json) : json :=
  JObj [("networks"%string, JList nets)].

Definition keyed (user : json) : json :=
  match user with
  | JObj items => JObj (items ++ [("key_path"%string, JStr "~/.ssh/id_ed25519")])
  | _ => user
  end.

(** The selection loop over
    [{"networks": [{"name": "lab", "servers": [legacy, two users]}]}]. *)
Definition lab_frame : network_frame :=
  {| networks := JList [lab [legacy_server; two_user_server]]; network_row := 0 |}.

Definition lab_servers (current_row : Z) : server_frame :=
  {| network := lab [legacy_server; two_user_server];
     servers := JList [legacy_server; two_user_server];
     server_row := current_row |}.

Definition bare_frame : network_frame :=
  {| networks := JList [lab []]; network_row := 0 |}.

(** A terminal that takes every write, and one that takes none. *)
Definition roomy : terminal := fun _ _ _ => true.
Definition cramped : terminal := fun _ _ _ => false.

Definition any_key : input := {| height := 24; takes := roomy; key := 65 |}.

(** [{"ip": "10.0.0.5", "username": "root", "key_path": "/nonexistent"}] *)
Definition lost_key_server : json :=
  JObj [("ip"%string, JStr "10.0.0.5"); ("username"%string, JStr "root");
        ("key_path"%string, JStr "/nonexistent")].

(** [{"username": "root", "port": "22"}], [{"ip": "10.0.0.5", "users": []}],
    [{"ip": "10.0.0.5", "users": [{"key_path": "/nonexistent"}]}] *)
Definition string_port_server : json :=
  JObj [("username"%string, JStr "root"); ("port"%string, JStr "22")].

Definition no_user_server : json :=
  JObj [("ip"%string, JStr "10.0.0.5"); ("users"%string, JList [])].

Definition nameless_user : json := JObj [("key_path"%string, JStr "/nonexistent")].

Definition nameless_user_server : json :=
  JObj [("ip"%string, JStr "10.0.0.5"); ("users"%string, JList [nameless_user])].

(** [{"ip": "10.0.0.5",
      "users": [{"username": "a", "description": null}, {"username": "b"}]}]
    and [{"ip": 5, "username": "root"}] *)
Definition undescribed : json :=
  JObj [("username"%string, JStr "a"); ("description"%string, JNull)].

Definition undescribed_user_server : json :=
  JObj [("ip"%string, JStr "10.0.0.5"); ("users"%string, JList [undescribed; bob])].

Definition numbered_ip_server : json :=
  JObj [("ip"%string, JInt 5); ("username"%string, JStr "root")].

(** The selection loop in the lists of a lab with one server. *)
Definition lab_of (server : json) : network_frame :=
  {| networks := JList [lab [server]]; network_row := 0 |}.

Definition servers_of (server : json) : server_frame :=
  {| network := lab [server]; servers := JList [server]; server_row := 0 |}.

Definition undescribed_users : user_frame :=
  {| info := {| ip := JStr "10.0.0.5"; description := JStr "N/A"; port := JInt 22 |};
     users := JList [undescribed; bob];
     user_row := 0 |}.

(** ["a\u0000b"], and [{"name": "a\u0000b", "servers": []}]. *)
Definition nul_name : string :=
  String "a" (String Ascii.zero (String "b" EmptyString)).

Definition nul_named_network : json :=
  JObj [("name"%string, JStr nul_name); ("servers"%string, JList [])].

(** [{"servers": []}], a network without its name. *)
Definition nameless_network : json := JObj [("servers"%string, JList [])].

(** Keys and heights for a walk through [lab_frame]: into the server list,
    a session on the first server, down, into the user list, down, a
    session for the second user. *)
Definition at_height (h : Z) (keys : list Z) : list input :=
  map (fun k => {| height := h; takes := roomy; key := k |}) keys.

Definition lab_walk : list input :=
  at_height 24 [ENTER; ENTER; KEY_DOWN; ENTER; KEY_DOWN; ENTER].

Definition lab_items : list (string * json) :=
  [("networks"%string, JList [lab [legacy_server; two_user_server]])].

Definition lab_users : user_frame :=
  {| info := {| ip := JStr "10.0.0.5"; description := JStr "N/A"; port := JInt 22 |};
     users := JList [alice; bob];
     user_row := 0 |}.

End Sample.

(** ** Properties *)

Import Sample.

(** Case analysis on a computation known to return. *)
Ltac split_result H :=
  repeat match type of H with
    | bind ?m _ = Return _ =>
        let E := fresh "E" in
        destruct m eqn:E; cbn [bind] in H; [|discriminate H]
    | match ?p with (_, _) => _ end = Return _ => destruct p
    | (if ?b then _ else _) = Return _ =>
        let E := fresh "E" in destruct b eqn:E
    end.

(** *** Startup on small inventories *)

Section Startup.

Variable path_exists : string -> option bool.
Variable expanduser : string -> option string.
Variable py_str : json -> string.

(** C10: the inventory [{"networks": []}] passes [validate_config] with no
    message, and [run] then sits in the network selection loop, with no
    network to choose from and no row drawn. *)
Theorem empty_inventory_is_accepted :
  validate_config path_exists expanduser py_str empty_inventory = Return []
  /\ run path_exists expanduser py_str empty_inventory []
     = Return (Blocked (NetworkList {| networks := JList []; network_row := 0 |}), [])
  /\ forall h t,
       draw expanduser py_str
            (NetworkList {| networks := JList []; network_row := 0 |}) h t
       = Return (Some (Menu "SELECT NETWORK ZONE" []
                            "↑/↓: Navigate | ENTER: Select | Q: Quit")).
Proof.
  repeat split.
Qed.

(** C9: [validate_config] is partial.  When [networks] is a list whose
    first element is an integer, the membership test of line 58 raises
    TypeError and no list of messages comes back; [{"networks": [7]}] is
    such an input. *)
Theorem validate_config_raises_on_integer_network :
  validate_config path_exists expanduser py_str number_for_network = Raise TypeError
  /\ forall n rest other,
       validate_config path_exists expanduser py_str
         (JObj (("networks"%string, JList (JInt n :: rest)) :: other))
       = Raise TypeError.
Proof.
  split; reflexivity.
Qed.

(** C1 (the code departs from it): [{"networks": []}] is validated without
    a message, its first screen is drawn, and the confirm key then raises
    IndexError at [networks[current_row]], which nothing catches. *)
Theorem confirm_on_empty_network_list_raises :
  forall h t,
    validate_config path_exists expanduser py_str empty_inventory = Return []
    /\ draw expanduser py_str
            (NetworkList {| networks := JList []; network_row := 0 |}) h t
       = Return (Some (Menu "SELECT NETWORK ZONE" []
                            "↑/↓: Navigate | ENTER: Select | Q: Quit"))
    /\ run path_exists expanduser py_str empty_inventory
           [{| height := h; takes := t; key := ENTER |}]
       = Raise IndexError.
Proof.
  intros h t. repeat split.
Qed.

End Startup.

(** *** get_port *)

Lemma get_port_absent items :
  lookup "port" items = None -> get_port (JObj items) = Return (JInt 22).
Proof.
  intro H. unfold get_port. cbn. rewrite H. reflexivity.
Qed.

Lemma get_port_not_an_int items v :
  lookup "port" items = Some v -> isinstance_int v = false ->
  get_port (JObj items) = Return (JInt 22).
Proof.
  intros H Hv. unfold get_port. cbn. rewrite H. cbn. rewrite Hv. reflexivity.
Qed.

Lemma get_port_out_of_range items n :
  lookup "port" items = Some (JInt n) -> n < 1 \/ 65535 < n ->
  get_port (JObj items) = Return (JInt 22).
Proof.
  intros H Hn. unfold get_port. cbn. rewrite H. cbn.
  destruct (Z.leb_spec 1 n); destruct (Z.leb_spec n 65535); cbn; try reflexivity; lia.
Qed.

Lemma get_port_in_range items n :
  lookup "port" items = Some (JInt n) -> 1 <= n <= 65535 ->
  get_port (JObj items) = Return (JInt n).
Proof.
  intros H Hn. unfold get_port. cbn. rewrite H. cbn.
  destruct (Z.leb_spec 1 n); destruct (Z.leb_spec n 65535); cbn; try reflexivity; lia.
Qed.

Lemma get_port_true items :
  lookup "port" items = Some (JBool true) ->
  get_port (JObj items) = Return (JBool true).
Proof.
  intro H. unfold get_port. cbn. rewrite H. reflexivity.
Qed.

Lemma get_port_returns items : exists p, get_port (JObj items) = Return p.
Proof.
  unfold get_port. cbn. destruct (lookup "port" items) as [v|]; cbn.
  - destruct (negb (isinstance_int v) || _); eauto.
  - eauto.
Qed.

(** C4 (the code departs from it): on the server record
    [{"ip": "10.0.0.5", "username": "root", "port": true}] the stored port
    is a boolean, not an integer of the inventory, yet [get_port] hands
    back [True] and not 22 ([isinstance(True, int)] holds and
    [1 <= True <= 65535]); the record passes [validate_config], and the
    session is started as [ssh -p True root@10.0.0.5]. *)
Theorem get_port_keeps_a_true_port :
  forall path_exists expanduser py_str,
    get_port true_port_server = Return (JBool true)
    /\ get_port true_port_server <> Return (JInt 22)
    /\ validate_config path_exists expanduser py_str (inventory [lab [true_port_server]])
       = Return []
    /\ exists inf user,
         normalize_server_format true_port_server = Return (inf, JList [user])
         /\ connect_ssh expanduser py_str inf user
            = Return ["ssh"; "-p"; py_str (JBool true);
                      py_str (JStr "root") ++ "@" ++ py_str (JStr "10.0.0.5")]%string.
Proof.
  intros. repeat split; try discriminate.
  eexists. eexists. split; reflexivity.
Qed.

(** *** normalize_server_format *)

Lemma normalize_legacy items ip_v username :
  lookup "ip" items = Some ip_v ->
  lookup "username" items = Some username ->
  lookup "users" items = None ->
  exists port_v,
    get_port (JObj items) = Return port_v
    /\ normalize_server_format (JObj items)
       = Return ({| ip := ip_v;
                    description := or_default (lookup "description" items) (JStr "N/A");
                    port := port_v |},
                 JList [legacy_user items username]).
Proof.
  intros Hip Hname Husers.
  destruct (get_port_returns items) as [p Hp].
  exists p. split; [exact Hp|].
  unfold normalize_server_format. cbn. rewrite Hip. cbn.
  rewrite Hp. cbn. rewrite Husers, Hname. cbn.
  unfold legacy_user, or_default.
  destruct (lookup "description" items); destruct (lookup "key_path" items); reflexivity.
Qed.

Lemma normalize_new_format items ip_v usrs :
  lookup "ip" items = Some ip_v ->
  lookup "users" items = Some usrs ->
  exists inf, normalize_server_format (JObj items) = Return (inf, usrs).
Proof.
  intros Hip Husers.
  destruct (get_port_returns items) as [p Hp].
  unfold normalize_server_format. cbn. rewrite Hip. cbn.
  rewrite Hp. cbn. rewrite Husers.
  destruct (lookup "description" items); cbn; eauto.
Qed.

(** C2, as the code has it: for every legacy-format server record (with its
    [ip], a [username] and no [users]), [normalize_server_format] returns
    a single-element user list whose user has the server's username, the
    server's key_path as given (None when there is none) and, as
    description, the server's own description when it has one and
    "Default user" only otherwise. *)
Theorem normalize_legacy_server :
  forall items ip_v username,
    lookup "ip" items = Some ip_v ->
    lookup "username" items = Some username ->
    lookup "users" items = None ->
    exists inf user,
      normalize_server_format (JObj items) = Return (inf, JList [user])
      /\ py_getitem user "username" = Return username
      /\ py_getitem user "key_path"
         = Return (or_default (lookup "key_path" items) JNull)
      /\ py_getitem user "description"
         = Return (or_default (lookup "description" items) (JStr "Default user"))
      /\ py_len user = Return 3.
Proof.
  intros items ip_v username Hip Hname Husers.
  destruct (normalize_legacy items ip_v username Hip Hname Husers) as [p [_ H]].
  eexists. exists (legacy_user items username).
  split; [exact H|]. repeat split.
Qed.

Lemma normalize_legacy_server_witness :
  exists inf user,
    normalize_server_format legacy_server = Return (inf, JList [user])
    /\ py_getitem user "username" = Return (JStr "root")
    /\ py_getitem user "key_path" = Return (JStr "~/.ssh/id_ed25519")
    /\ py_getitem user "description" = Return (JStr "Default user")
    /\ py_len user = Return 3.
Proof.
  exact (normalize_legacy_server
           [("ip"%string, JStr "10.0.0.5"); ("username"%string, JStr "root");
            ("key_path"%string, JStr "~/.ssh/id_ed25519")]
           (JStr "10.0.0.5") (JStr "root") eq_refl eq_refl eq_refl).
Defined.

(** C2 as stated fails: the legacy server
    [{"ip": "10.0.0.5", "username": "root", "description": "Web server"}]
    has a [username] and no [users], and the user built for it is
    described "Web server", not "Default user". *)
Lemma legacy_description_is_not_always_default :
  py_in "username" described_legacy_server = Return true
  /\ py_in "users" described_legacy_server = Return false
  /\ exists inf user,
       normalize_server_format described_legacy_server = Return (inf, JList [user])
       /\ py_getitem user "description" = Return (JStr "Web server")
       /\ py_getitem user "description" <> Return (JStr "Default user").
Proof.
  repeat split. eexists. eexists. repeat split. discriminate.
Qed.

(** *** get_auth_method_display *)

Section Auth.

Variable expanduser : string -> option string.





End Auth.



(** *** The selection loops *)

Section Selection.

Variable expanduser : string -> option string.
Variable py_str : json -> string.

Lemma connect_ssh_returns inf user :
  user_record user = true ->
  (forall s, py_get user "key_path" JNull = Return (JStr s) ->
             s <> EmptyString ->
             exists expanded, expanduser s = Some expanded) ->
  exists cmd, connect_ssh expanduser py_str inf user = Return cmd.
Proof.
  destruct user as [| | | | | |items]; try discriminate. cbn.
  unfold connect_ssh, get_auth_method_display. cbn.
  destruct (lookup "username" items) as [u|]; [|discriminate].
  destruct (lookup "description" items);
    destruct (lookup "key_path" items) as [[| | | |s| |]|]; try discriminate;
    intros _ Hexp; cbn; try (eexists; reflexivity);
    (destruct (String.eqb_spec s EmptyString) as [Hs | Hs]; cbn;
     [eexists; reflexivity|]);
    destruct (Hexp s eq_refl Hs) as [expanded ->]; eexists; reflexivity.
Qed.

Lemma connect_ssh_unknown_home inf user s :
  user_record user = true ->
  py_get user "key_path" JNull = Return (JStr s) ->
  s <> EmptyString ->
  expanduser s = None ->
  connect_ssh expanduser py_str inf user = Raise RuntimeError.
Proof.
  destruct user as [| | | | | |items]; try discriminate. cbn.
  unfold connect_ssh, get_auth_method_display. cbn.
  destruct (lookup "username" items) as [u|]; [|discriminate].
  intros _ Hget Hs Hexp.
  assert (Hkey : or_default (lookup "key_path" items) JNull = JStr s).
  { destruct (lookup "key_path" items); cbn in *; congruence. }
  destruct (lookup "description" items); cbn;
    destruct (lookup "key_path" items) as [v|]; cbn in *;
    try discriminate; inversion Hget; subst; cbn;
    (destruct (String.eqb_spec s EmptyString); [contradiction|]);
    cbn; rewrite Hexp; reflexivity.
Qed.

(** For a network record whose [servers] list is empty and whose title has
    no NUL, the confirm key on that network leaves the program in the
    no-servers branch; there it draws the message "No servers configured
    in this network", reads one key, and whatever the key is goes back to
    the same network list with the same cursor. *)
Lemma empty_network_shows_notice_and_returns :
  forall nf net items name,
    net = JObj items ->
    lookup "name" items = Some name ->
    lookup "servers" items = Some (JList []) ->
    py_index (networks nf) (network_row nf) = Return net ->
    has_nul (py_str name ++ " Network") = false ->
    let notice := Notice (py_str name ++ " Network")
                         "No servers configured in this network"
                         "Press any key to return..." in
    handle_key expanduser py_str (NetworkList nf) ENTER = Return (NoServers nf net, [])
    /\ (forall i, step expanduser py_str (NoServers nf net) i = Return (NetworkList nf, [Drawn notice]))
    /\ (forall h t v i,
          draw expanduser py_str (NetworkList nf) h t = Return (Some v) ->
          run_menu expanduser py_str (NetworkList nf)
            [{| height := h; takes := t; key := ENTER |}; i]
          = Return (NetworkList nf, [Drawn v; Drawn notice])).
Proof.
  intros nf net items name -> Hname Hsrv Hidx Hnul notice.
  assert (Hkey : handle_key expanduser py_str (NetworkList nf) ENTER
                 = Return (NoServers nf (JObj items), [])).
  { cbn. unfold network_key, moves_down. cbn. rewrite Hidx. cbn.
    unfold enter_server_selection. cbn. rewrite Hsrv. reflexivity. }
  assert (Hstep : forall i, step expanduser py_str (NoServers nf (JObj items)) i
                            = Return (NetworkList nf, [Drawn notice])).
  { intro i. unfold step. cbn [draw py_getitem]. rewrite Hname. cbn [bind].
    unfold draw_header. rewrite Hnul. reflexivity. }
  split; [exact Hkey|]. split; [exact Hstep|].
  intros h t v i Hdraw.
  cbn [run_menu]. unfold step at 1. cbn [height takes key].
  rewrite Hdraw. cbn [bind]. rewrite Hkey. cbn [bind].
  rewrite Hstep. reflexivity.
Qed.

Lemma nothing_fits_a_low_terminal t h current_row nets :
  h <= 7 -> network_rows py_str t h current_row 0 nets = Return [].
Proof.
  intro Hh. destruct nets as [|net nets]; cbn [network_rows]; [reflexivity|].
  destruct (Z.geb_spec (4 + 0) (h - 3)); [reflexivity | lia].
Qed.

Lemma addstr_nul t y x s :
  has_nul s = true -> addstr t y x (JStr s) = Raise ValueError.
Proof. intro H. unfold addstr. now rewrite H. Qed.

Lemma addstr_mark t y x selected :
  addstr t y x (JStr (cursor_mark selected))
  = if t y x (cursor_mark selected) then Return tt else Raise CursesError.
Proof. destruct selected; reflexivity. Qed.

(** The row of a network whose name has a NUL, on a terminal high enough
    to show it: the line is not written. *)
Lemma nul_named_row t h current_row :
  7 < h ->
  network_rows py_str t h current_row 0 [nul_named_network]
  = if t 4 2 (cursor_mark (0 =? current_row)) then Raise ValueError
    else Return [NetworkRow (0 =? current_row)
                   (nul_name ++ spaces 12) ("N/A" ++ spaces 15) 0].
Proof.
  intro Hh. cbn [network_rows].
  destruct (Z.geb_spec (4 + 0) (h - 3)); [lia|].
  change (py_getitem nul_named_network "name") with (Return (JStr nul_name)).
  change (py_get nul_named_network "cidr" (JStr "N/A")) with (Return (JStr "N/A")).
  change (py_get nul_named_network "servers" (JList [])) with (Return (JList [])).
  cbn [bind].
  change (py_ljust (JStr nul_name) 15) with (Return (nul_name ++ spaces 12)%string).
  change (py_ljust (JStr "N/A") 18) with (Return ("N/A" ++ spaces 15)%string).
  cbn [bind py_len List.length Z.of_nat].
  rewrite addstr_mark. change (4 + 0) with 4.
  destruct (t 4 2 (cursor_mark (0 =? current_row))); cbn [bind];
    [rewrite addstr_nul by reflexivity|]; reflexivity.
Qed.

(** C7 (the code departs from it): the inventory
    [{"networks": [{"name": "a\u0000b", "servers": []}]}] is validated
    without a message, and the confirm key on its network, whose
    [servers] list is empty, ends the program with ValueError at any
    terminal height, on any terminal and whatever key follows.  On a
    terminal of at most 7 lines no network row is written: the network
    list is drawn, the confirm key enters the no-servers branch, and its
    [draw_header] writes the title ["a\u0000b Network"]; [addstr] raises
    ValueError on the NUL, which [except curses.error] does not catch,
    and the message is not shown.  On a higher terminal the row of the
    network either is refused by the terminal, and the same happens, or
    is written, and the ValueError is raised by the first draw. *)
Theorem confirm_on_nul_named_empty_network_raises :
  forall path_exists h t i,
    py_str (JStr nul_name) = nul_name ->
    validate_config path_exists expanduser py_str (inventory [nul_named_network])
    = Return []
    /\ (h <= 7 ->
        run path_exists expanduser py_str (inventory [nul_named_network])
            [{| height := h; takes := t; key := ENTER |}]
        = Return (Blocked (NoServers {| networks := JList [nul_named_network];
                                        network_row := 0 |} nul_named_network),
                  [Drawn (Menu "SELECT NETWORK ZONE" []
                               "↑/↓: Navigate | ENTER: Select | Q: Quit")]))
    /\ run path_exists expanduser py_str (inventory [nul_named_network])
           [{| height := h; takes := t; key := ENTER |}; i]
       = Raise ValueError.
Proof.
  intros pe h t i Hstr.
  set (nf := {| networks := JList [nul_named_network]; network_row := 0 |}).
  assert (Hkey : handle_key expanduser py_str (NetworkList nf) ENTER
                 = Return (NoServers nf nul_named_network, [])) by reflexivity.
  assert (Hsecond : step expanduser py_str (NoServers nf nul_named_network) i
                    = Raise ValueError).
  { unfold step. cbn [draw]. unfold nul_named_network at 1.
    cbn [py_getitem lookup String.eqb Ascii.eqb Bool.eqb bind].
    rewrite Hstr. reflexivity. }
  assert (Hrun : forall inputs,
             run pe expanduser py_str (inventory [nul_named_network]) inputs
             = (' (st, evs) <- run_menu expanduser py_str (NetworkList nf) inputs ;;
                Return (match st with
                        | Exit => Finished
                        | _ => Blocked st
                        end, evs))) by reflexivity.
  assert (Hhead : draw_header "SELECT NETWORK ZONE" = Return tt) by reflexivity.
  split; [reflexivity|]. split.
  - intro Hh. rewrite Hrun. cbn [run_menu]. unfold step.
    cbn [draw height takes key networks network_row py_iter nf].
    rewrite Hhead. cbn [bind].
    rewrite (nothing_fits_a_low_terminal t h 0 _ Hh). cbn [bind].
    fold nf. rewrite Hkey. reflexivity.
  - rewrite Hrun. cbn [run_menu]. unfold step at 1.
    cbn [draw height takes key networks network_row py_iter nf].
    rewrite Hhead. cbn [bind]. fold nf.
    destruct (Z.leb_spec h 7) as [Hh | Hh].
    + rewrite (nothing_fits_a_low_terminal t h 0 _ Hh). cbn [bind].
      rewrite Hkey. cbn [bind]. rewrite Hsecond. reflexivity.
    + rewrite (nul_named_row t h 0 Hh).
      destruct (t 4 2 (cursor_mark (0 =? 0))); cbn [bind]; [reflexivity|].
      rewrite Hkey. cbn [bind]. rewrite Hsecond. reflexivity.
Qed.

(** Confirming a server. *)
Lemma server_key_enter nf sf server inf usrs count :
  py_index (servers sf) (server_row sf) = Return server ->
  normalize_server_format server = Return (inf, usrs) ->
  py_len usrs = Return count ->
  server_key expanduser py_str nf sf ENTER
  = if count =? 1 then
      user <- py_index usrs 0 ;;
      cmd <- connect_ssh expanduser py_str inf user ;;
      Return (ServerList nf sf, [Connecting inf user cmd])
    else
      Return (UserList nf sf {| info := inf; users := usrs; user_row := 0 |}, []).
Proof.
  intros Hidx Hnorm Hlen.
  unfold server_key, moves_down. cbn.
  rewrite Hidx. cbn. rewrite Hnorm. cbn. rewrite Hlen. reflexivity.
Qed.

(** C6: when normalising the server under the cursor yields exactly one
    user, the confirm key runs [connect_ssh] with that user and leaves the
    program in the same server list; no user list is entered.  For a user
    record whose key path expands the session is started; where the home
    of the key path is not known, the RuntimeError of [connect_ssh] is
    the key's result.  A legacy server and a server whose [users] list
    has one element both normalise to one user.  When normalising yields
    two or more users, the confirm key enters the user list over those
    users, cursor on the first. *)
Theorem single_user_goes_straight_to_connect :
  forall nf sf server,
    py_index (servers sf) (server_row sf) = Return server ->
    (forall inf user,
        normalize_server_format server = Return (inf, JList [user]) ->
        handle_key expanduser py_str (ServerList nf sf) ENTER
        = (cmd <- connect_ssh expanduser py_str inf user ;;
           Return (ServerList nf sf, [Connecting inf user cmd]))
        /\ (forall st evs,
               handle_key expanduser py_str (ServerList nf sf) ENTER = Return (st, evs) ->
               st = ServerList nf sf)
        /\ (user_record user = true ->
            (forall s, py_get user "key_path" JNull = Return (JStr s) ->
                       s <> EmptyString ->
                       exists expanded, expanduser s = Some expanded) ->
            exists cmd,
              handle_key expanduser py_str (ServerList nf sf) ENTER
              = Return (ServerList nf sf, [Connecting inf user cmd]))
        /\ (forall s,
               user_record user = true ->
               py_get user "key_path" JNull = Return (JStr s) ->
               s <> EmptyString ->
               expanduser s = None ->
               handle_key expanduser py_str (ServerList nf sf) ENTER
               = Raise RuntimeError))
    /\ (forall items ip_v username,
          server = JObj items ->
          lookup "ip" items = Some ip_v ->
          lookup "username" items = Some username ->
          lookup "users" items = None ->
          exists inf user, normalize_server_format server = Return (inf, JList [user]))
    /\ (forall items ip_v user,
          server = JObj items ->
          lookup "ip" items = Some ip_v ->
          lookup "users" items = Some (JList [user]) ->
          exists inf, normalize_server_format server = Return (inf, JList [user]))
    /\ (forall inf usrs,
          normalize_server_format server = Return (inf, JList usrs) ->
          (2 <= List.length usrs)%nat ->
          handle_key expanduser py_str (ServerList nf sf) ENTER
          = Return (UserList nf sf {| info := inf; users := JList usrs; user_row := 0 |},
                    [])).
Proof.
  intros nf sf server Hidx. split; [|split; [|split]].
  - intros inf user Hnorm.
    assert (Hkey : handle_key expanduser py_str (ServerList nf sf) ENTER
                   = (cmd <- connect_ssh expanduser py_str inf user ;;
                      Return (ServerList nf sf, [Connecting inf user cmd]))).
    { cbn [handle_key].
      rewrite (server_key_enter nf sf server inf (JList [user]) 1 Hidx Hnorm eq_refl).
      reflexivity. }
    split; [exact Hkey|]. split; [|split].
    + intros st evs H. rewrite Hkey in H.
      destruct (connect_ssh expanduser py_str inf user); cbn in H; [|discriminate].
      now inversion H.
    + intros Hrec Hexp.
      destruct (connect_ssh_returns inf user Hrec Hexp) as [cmd Hcmd].
      exists cmd. rewrite Hkey, Hcmd. reflexivity.
    + intros s Hrec Hget Hs Hexp.
      rewrite Hkey, (connect_ssh_unknown_home inf user s Hrec Hget Hs Hexp).
      reflexivity.
  - intros items ip_v username -> Hip Hname Husers.
    destruct (normalize_legacy items ip_v username Hip Hname Husers) as [p [_ H]].
    eauto.
  - intros items ip_v user -> Hip Husers.
    apply (normalize_new_format items ip_v (JList [user]) Hip Husers).
  - intros inf usrs Hnorm Hlen. cbn [handle_key].
    rewrite (server_key_enter nf sf server inf (JList usrs)
               (Z.of_nat (List.length usrs)) Hidx Hnorm eq_refl).
    destruct (Z.eqb_spec (Z.of_nat (List.length usrs)) 1); [lia | reflexivity].
Qed.

(** Cursor moves.  The three loops share the same two guarded moves. *)

Lemma in_range_up items current_row :
  in_range items current_row -> (current_row >? 0) = true ->
  in_range items (current_row - 1).
Proof.
  intros [len [Hlen Hr]] Hup. exists len. split; [exact Hlen | lia].
Qed.

Lemma in_range_down items current_row k :
  in_range items current_row ->
  moves_down k current_row items = Return true ->
  in_range items (current_row + 1).
Proof.
  intros [len [Hlen Hr]] Hdown. exists len. split; [exact Hlen|].
  unfold moves_down in Hdown. rewrite Hlen in Hdown. cbn in Hdown.
  destruct (k =? KEY_DOWN); [|discriminate].
  inversion Hdown. lia.
Qed.

Lemma enter_server_selection_row nf net st :
  enter_server_selection nf net = Return st ->
  st = NoServers nf net
  \/ exists srvs, truthy srvs = true
       /\ st = ServerList nf {| network := net; servers := srvs; server_row := 0 |}.
Proof.
  unfold enter_server_selection. intro H.
  destruct (py_get net "servers" (JList [])) as [srvs|]; cbn in H; [|discriminate].
  destruct (truthy srvs) eqn:T; cbn in H; inversion H; eauto.
Qed.

Lemma network_key_cursor nf k nf' evs :
  in_range (networks nf) (network_row nf) ->
  network_key nf k = Return (NetworkList nf', evs) ->
  networks nf' = networks nf /\ in_range (networks nf') (network_row nf').
Proof.
  intros Hin H. unfold network_key in H.
  destruct ((k =? KEY_UP) && (network_row nf >? 0)) eqn:Eup.
  - inversion H; subst; cbn. split; [reflexivity|].
    apply in_range_up; [exact Hin|].
    now apply andb_prop in Eup.
  - destruct (moves_down k (network_row nf) (networks nf)) as [down|] eqn:Edown;
      cbn [bind] in H; [|discriminate].
    destruct down.
    + inversion H; subst; cbn. split; [reflexivity|].
      now apply in_range_down with (k := k).
    + destruct (k =? ENTER).
      * split_result H.
        apply enter_server_selection_row in E0.
        destruct E0 as [-> | [srvs [_ ->]]]; discriminate.
      * destruct (is_quit k); inversion H; subst. now split.
Qed.

Lemma server_key_cursor nf sf k nf' sf' evs :
  in_range (servers sf) (server_row sf) ->
  server_key expanduser py_str nf sf k = Return (ServerList nf' sf', evs) ->
  nf' = nf /\ servers sf' = servers sf /\ in_range (servers sf') (server_row sf').
Proof.
  intros Hin H. unfold server_key in H.
  destruct ((k =? KEY_UP) && (server_row sf >? 0)) eqn:Eup.
  - inversion H; subst; cbn. repeat split.
    apply in_range_up; [exact Hin|].
    now apply andb_prop in Eup.
  - destruct (moves_down k (server_row sf) (servers sf)) as [down|] eqn:Edown;
      cbn [bind] in H; [|discriminate].
    destruct down.
    + inversion H; subst; cbn. repeat split.
      now apply in_range_down with (k := k).
    + destruct (k =? ENTER).
      * split_result H; inversion H; subst; now repeat split.
      * destruct (is_quit k); inversion H; subst. now repeat split.
Qed.

Lemma user_key_cursor nf sf uf k nf' sf' uf' evs :
  in_range (users uf) (user_row uf) ->
  user_key expanduser py_str nf sf uf k = Return (UserList nf' sf' uf', evs) ->
  nf' = nf /\ sf' = sf /\ users uf' = users uf
  /\ in_range (users uf') (user_row uf').
Proof.
  intros Hin H. unfold user_key in H.
  destruct ((k =? KEY_UP) && (user_row uf >? 0)) eqn:Eup.
  - inversion H; subst; cbn. repeat split.
    apply in_range_up; [exact Hin|].
    now apply andb_prop in Eup.
  - destruct (moves_down k (user_row uf) (users uf)) as [down|] eqn:Edown;
      cbn [bind] in H; [|discriminate].
    destruct down.
    + inversion H; subst; cbn. repeat split.
      now apply in_range_down with (k := k).
    + destruct (k =? ENTER).
      * split_result H; inversion H; subst; now repeat split.
      * destruct (is_quit k); inversion H; subst. now repeat split.
Qed.

(** A list state is entered with the cursor on row 0, which is a row of the
    list as soon as the list has one. *)
Lemma in_range_first x l : in_range (JList (x :: l)) 0.
Proof.
  exists (Z.of_nat (List.length (x :: l))). split; [reflexivity|].
  cbn [List.length]. lia.
Qed.

(** Up on the first row and down on the last one leave the cursor alone. *)
Lemma network_key_clamped nf len :
  py_len (networks nf) = Return len ->
  (network_row nf = 0 -> network_key nf KEY_UP = Return (NetworkList nf, []))
  /\ (len - 1 <= network_row nf ->
      network_key nf KEY_DOWN = Return (NetworkList nf, [])).
Proof.
  intro Hlen. unfold network_key, moves_down. split.
  - intros ->. reflexivity.
  - intro Hlast. cbn. rewrite Hlen. cbn.
    destruct (Z.ltb_spec (network_row nf) (len - 1)); [lia|reflexivity].
Qed.

(** C8 (the code departs from it): on the validated inventory
    [{"networks": []}] the network list state has no row, its cursor is 0
    and stays 0 under every key that does not raise, so it is never
    within [0, len - 1]. *)
Theorem cursor_of_empty_network_list_is_out_of_range :
  forall path_exists,
    let start := NetworkList {| networks := JList []; network_row := 0 |} in
    validate_config path_exists expanduser py_str empty_inventory = Return []
    /\ run path_exists expanduser py_str empty_inventory [] = Return (Blocked start, [])
    /\ py_len (JList []) = Return 0
    /\ ~ in_range (JList []) 0
    /\ forall k, k <> ENTER ->
         handle_key expanduser py_str start k
         = Return (if is_quit k then Exit else start, []).
Proof.
  intros pe start. repeat split.
  - intros [len [Hlen Hr]]. inversion Hlen. lia.
  - intros k Hk. cbn. unfold network_key, moves_down. cbn.
    rewrite andb_false_r.
    destruct (k =? KEY_DOWN); cbn;
      (destruct (Z.eqb_spec k ENTER); [contradiction|]);
      destruct (is_quit k); reflexivity.
Qed.

End Selection.

(** *** validate_config *)

Section Validation.

Variable path_exists : string -> option bool.
Variable expanduser : string -> option string.
Variable py_str : json -> string.

Lemma for_enumerate_nth body :
  forall l start errs j x,
    for_enumerate body start l = Return errs ->
    nth_error l j = Some x ->
    exists e, body (start + j)%nat x = Return e /\ incl e errs.
Proof.
  induction l as [|a l IH]; intros start errs j x H Hnth.
  - destruct j; discriminate.
  - cbn in H. split_result H. inversion H; subst.
    destruct j as [|j]; cbn in Hnth.
    + inversion Hnth; subst. exists a0. rewrite Nat.add_0_r.
      split; [assumption | apply incl_appl, incl_refl].
    + destruct (IH (S start) a1 j x E0 Hnth) as [e [He Hincl]].
      exists e. rewrite Nat.add_succ_r. split; [exact He|].
      now apply incl_appr.
Qed.

Lemma for_enumerate_returns body :
  forall l start,
    (forall i x, In x l -> exists e, body i x = Return e) ->
    exists errs, for_enumerate body start l = Return errs.
Proof.
  induction l as [|a l IH]; intros start Hall; cbn.
  - eauto.
  - destruct (Hall start a (or_introl eq_refl)) as [e He]. rewrite He. cbn.
    destruct (IH (S start)) as [more Hmore].
    + intros i x Hx. apply Hall. now right.
    + rewrite Hmore. cbn. eauto.
Qed.

Lemma key_path_errors_returns pre items :
  key_path_typed path_exists expanduser items = true ->
  exists e, key_path_errors path_exists expanduser pre (JObj items) = Return e.
Proof.
  unfold key_path_typed, key_path_errors. cbn.
  destruct (lookup "key_path" items) as [[| | | |s| |]|]; try discriminate;
    intros H; cbn; eauto.
  destruct (String.eqb s EmptyString); cbn in *; [eauto|].
  destruct (expanduser s) as [expanded|]; [|discriminate].
  destruct (path_exists expanded) as [[|]|]; [eauto | eauto | discriminate].
Qed.

Lemma validate_user_returns idx srv_idx user_idx user :
  user_typed path_exists expanduser user = true ->
  exists e, validate_user path_exists expanduser idx srv_idx user_idx user = Return e.
Proof.
  destruct user as [| | | | | |items]; try discriminate. cbn [user_typed].
  intro Hk. unfold validate_user. cbn [py_in bind].
  destruct (key_path_errors_returns (user_prefix idx srv_idx user_idx) items Hk)
    as [e He].
  rewrite He. cbn. eauto.
Qed.

Lemma validate_port_returns idx srv_idx items :
  exists e, validate_port py_str idx srv_idx (JObj items) = Return e.
Proof.
  unfold validate_port. cbn.
  destruct (lookup "port" items) as [v|]; cbn; [|eauto].
  destruct (is_none v); [eauto|].
  destruct (negb (isinstance_int v) || _); eauto.
Qed.

Lemma validate_server_returns idx srv_idx server :
  server_typed path_exists expanduser server = true ->
  exists e, validate_server path_exists expanduser py_str idx srv_idx server = Return e.
Proof.
  destruct server as [| | | | | |items]; try discriminate. cbn [server_typed].
  intro H. apply andb_prop in H. destruct H as [Hk Hu].
  unfold validate_server. cbn [py_in bind].
  assert (Husers : exists e,
           (if match lookup "users" items with Some _ => true | None => false end
            then validate_users path_exists expanduser idx srv_idx (JObj items)
            else Return []) = Return e).
  { unfold validate_users. cbn.
    destruct (lookup "users" items) as [v|]; [|eauto]. cbn.
    destruct v as [| | | | |usrs|]; eauto.
    destruct usrs as [|u usrs]; [eauto|].
    apply for_enumerate_returns. intros i x Hx.
    apply validate_user_returns.
    rewrite forallb_forall in Hu. now apply Hu. }
  destruct Husers as [eu ->]. cbn [bind].
  destruct (validate_port_returns idx srv_idx items) as [ep ->]. cbn [bind].
  destruct (key_path_errors_returns (srv_prefix idx srv_idx) items Hk) as [ek Hek].
  destruct (lookup "username" items); [rewrite Hek|]; cbn; eauto.
Qed.

Lemma validate_network_returns idx net :
  network_typed path_exists expanduser net = true ->
  exists e, validate_network path_exists expanduser py_str idx net = Return e.
Proof.
  destruct net as [| | | | | |items]; try discriminate. cbn [network_typed].
  intro H. unfold validate_network. cbn.
  destruct (lookup "servers" items) as [v|]; cbn; [|eauto].
  destruct v as [| | | | |srvs|]; eauto.
  destruct (for_enumerate_returns (validate_server path_exists expanduser py_str idx) srvs 0%nat)
    as [e He].
  - intros i x Hx. apply validate_server_returns.
    rewrite forallb_forall in H. now apply H.
  - rewrite He. cbn. eauto.
Qed.

(** On an inventory made of records [validate_config] returns its list. *)
Lemma validate_config_returns config :
  inventory_typed path_exists expanduser config = true ->
  exists errs, validate_config path_exists expanduser py_str config = Return errs.
Proof.
  destruct config as [| | | | | |items]; cbn; eauto.
  destruct (lookup "networks" items) as [v|]; [|eauto].
  destruct v as [| | | | |nets|]; eauto.
  intro H. apply for_enumerate_returns. intros i x Hx.
  apply validate_network_returns.
  rewrite forallb_forall in H. now apply H.
Qed.

Lemma validate_network_servers idx fields srvs errs :
  validate_network path_exists expanduser py_str idx (JObj fields) = Return errs ->
  lookup "servers" fields = Some (JList srvs) ->
  exists field_errs srv_errs,
    for_enumerate (validate_server path_exists expanduser py_str idx) 0%nat srvs = Return srv_errs
    /\ errs = field_errs ++ srv_errs.
Proof.
  intros H Hsrv. unfold validate_network in H. cbn in H.
  rewrite Hsrv in H. cbn in H.
  split_result H. inversion H; subst. eauto.
Qed.

(** Every server record validation meets is given to [validate_server], and
    what that call appends is part of the final list. *)
Lemma validate_config_visits config idx srv_idx server errs :
  server_at config idx srv_idx = Some server ->
  validate_config path_exists expanduser py_str config = Return errs ->
  exists e,
    validate_server path_exists expanduser py_str idx srv_idx server = Return e
    /\ incl e errs.
Proof.
  unfold server_at. intros Hat H.
  destruct config as [| | | | | |items]; try discriminate.
  cbn in H.
  destruct (lookup "networks" items) as [[| | | | |nets|]|]; try discriminate.
  destruct (nth_error nets idx) as [[| | | | | |fields]|] eqn:Hnet; try discriminate.
  destruct (lookup "servers" fields) as [[| | | | |srvs|]|] eqn:Hsrv; try discriminate.
  destruct (for_enumerate_nth _ _ _ _ _ _ H Hnet) as [en [Hen Hincl]].
  destruct (validate_network_servers _ _ _ _ Hen Hsrv) as [fe [se [Hse ->]]].
  destruct (for_enumerate_nth _ _ _ _ _ _ Hse Hat) as [e [He Hincl']].
  exists e. split; [exact He|].
  intros m Hm. apply Hincl. apply in_or_app. right. now apply Hincl'.
Qed.

Lemma validate_server_both idx srv_idx server e :
  validate_server path_exists expanduser py_str idx srv_idx server = Return e ->
  py_in "username" server = Return true ->
  py_in "users" server = Return true ->
  In (both_msg idx srv_idx) e.
Proof.
  intros H Hu Hs. unfold validate_server in H.
  rewrite Hu, Hs in H.
  destruct (py_in "ip" server) as [has_ip|]; cbn [bind] in H; [|discriminate].
  split_result H. inversion H; subst. cbn.
  apply in_or_app. right. now left.
Qed.

Lemma validate_server_neither idx srv_idx server e :
  validate_server path_exists expanduser py_str idx srv_idx server = Return e ->
  py_in "username" server = Return false ->
  py_in "users" server = Return false ->
  In (neither_msg idx srv_idx) e.
Proof.
  intros H Hu Hs. unfold validate_server in H.
  rewrite Hu, Hs in H.
  destruct (py_in "ip" server) as [has_ip|]; cbn [bind] in H; [|discriminate].
  split_result H. inversion H; subst. cbn.
  apply in_or_app. right. now left.
Qed.

Lemma validate_server_clean idx srv_idx server :
  validate_server path_exists expanduser py_str idx srv_idx server = Return [] ->
  exists has_username has_users,
    py_in "username" server = Return has_username
    /\ py_in "users" server = Return has_users
    /\ xorb has_username has_users = true.
Proof.
  intro H. unfold validate_server in H.
  destruct (py_in "ip" server) as [has_ip|]; cbn [bind] in H; [|discriminate].
  destruct (py_in "username" server) as [hu|]; cbn [bind] in H; [|discriminate].
  destruct (py_in "users" server) as [hs|]; cbn [bind] in H; [|discriminate].
  exists hu, hs. repeat split.
  split_result H. inversion H as [Hnil].
  apply app_eq_nil in Hnil. destruct Hnil as [_ Hnil].
  destruct hu, hs; cbn in Hnil; try reflexivity; discriminate.
Qed.

Lemma append_cancel (pre a b : string) :
  (pre ++ a)%string = (pre ++ b)%string -> a = b.
Proof.
  induction pre as [|c pre IH]; cbn; intro H; [exact H|].
  inversion H. auto.
Qed.

Lemma both_and_neither_differ idx srv_idx :
  both_msg idx srv_idx <> neither_msg idx srv_idx.
Proof.
  unfold both_msg, neither_msg. intro H.
  apply append_cancel in H. discriminate.
Qed.

(** C3, as the code has it: for every server record of the raw inventory,
    whenever [validate_config] returns its list, the list holds the
    message "Cannot have both 'username' and 'users' fields" for that
    server when it has both fields, and the different message "Must have
    either 'username' or 'users' field" when it has neither; when the
    returned list is empty, the server has exactly one of the two.
    [validate_config] does return its list on an inventory made of
    records whose non-empty key paths have a home to expand to and a
    filesystem that answers for them; on others it can raise.  Raised
    or returned, the result for an inventory with a server that has both
    fields or neither is never the empty list. *)
Theorem credential_shape_is_checked :
  forall config idx srv_idx server,
    server_at config idx srv_idx = Some server ->
    (inventory_typed path_exists expanduser config = true ->
     exists errs, validate_config path_exists expanduser py_str config = Return errs)
    /\ (forall errs,
          validate_config path_exists expanduser py_str config = Return errs ->
          (py_in "username" server = Return true ->
           py_in "users" server = Return true ->
           In (both_msg idx srv_idx) errs)
          /\ (py_in "username" server = Return false ->
              py_in "users" server = Return false ->
              In (neither_msg idx srv_idx) errs)
          /\ (errs = [] ->
              exists has_username has_users,
                py_in "username" server = Return has_username
                /\ py_in "users" server = Return has_users
                /\ xorb has_username has_users = true))
    /\ both_msg idx srv_idx <> neither_msg idx srv_idx
    /\ (forall present,
          py_in "username" server = Return present ->
          py_in "users" server = Return present ->
          validate_config path_exists expanduser py_str config <> Return []).
Proof.
  intros config idx srv_idx server Hat.
  assert (Hlist : forall errs,
             validate_config path_exists expanduser py_str config = Return errs ->
             exists e,
               validate_server path_exists expanduser py_str idx srv_idx server
               = Return e /\ incl e errs).
  { intros errs H. exact (validate_config_visits _ _ _ _ _ Hat H). }
  split; [apply validate_config_returns|].
  split; [|split; [apply both_and_neither_differ|]].
  - intros errs H.
    destruct (Hlist errs H) as [e [He Hincl]].
    split; [|split].
    + intros Hu Hs. apply Hincl.
      now apply validate_server_both with (server := server).
    + intros Hu Hs. apply Hincl.
      now apply validate_server_neither with (server := server).
    + intros ->. apply incl_l_nil in Hincl. subst e.
      now apply validate_server_clean with (idx := idx) (srv_idx := srv_idx).
  - intros present Hu Hs H.
    destruct (Hlist [] H) as [e [He Hincl]].
    apply incl_l_nil in Hincl. subst e.
    destruct (validate_server_clean _ _ _ He) as [hu [hs [Hu' [Hs' Hx]]]].
    rewrite Hu in Hu'. rewrite Hs in Hs'.
    inversion Hu'; inversion Hs'; subst. now destruct hs.
Qed.

End Validation.

(** *** The statements above at sample inputs *)

(** C3 as stated fails: the server
    [{"ip": "10.0.0.5", "username": "root", "users": [5]}] has both
    fields, and validation reports nothing for it: the loop over its
    users evaluates ['username' not in 5] and raises TypeError. *)
Lemma both_shapes_are_not_always_reported :
  py_in "username" numbered_user_server = Return true
  /\ py_in "users" numbered_user_server = Return true
  /\ validate_config every_key_on_disk home_is_root show
       (inventory [lab [numbered_user_server]])
     = Raise TypeError.
Proof.
  repeat split; reflexivity.
Qed.

Lemma credential_shape_is_checked_witness :
  validate_config every_key_on_disk home_is_root show (inventory [lab [both_shapes_server]])
  = Return [both_msg 0 0]
  /\ In (both_msg 0 0) [both_msg 0 0].
Proof.
  split; [reflexivity|].
  exact (proj1 (proj1 (proj2 (credential_shape_is_checked every_key_on_disk home_is_root show
           (inventory [lab [both_shapes_server]]) 0%nat 0%nat both_shapes_server
           eq_refl)) [both_msg 0 0] eq_refl) eq_refl eq_refl).
Defined.

Lemma legacy_key_expands :
  forall s,
    py_get (legacy_user [("ip"%string, JStr "10.0.0.5");
                         ("username"%string, JStr "root");
                         ("key_path"%string, JStr "~/.ssh/id_ed25519")]
                        (JStr "root"))
           "key_path" JNull = Return (JStr s) ->
    s <> EmptyString ->
    exists expanded, home_is_root s = Some expanded.
Proof.
  intros s H _. inversion H; subst. eexists. reflexivity.
Qed.

Lemma single_user_goes_straight_to_connect_witness :
  exists inf user cmd,
    normalize_server_format legacy_server = Return (inf, JList [user])
    /\ handle_key home_is_root show (ServerList lab_frame (lab_servers 0)) ENTER
       = Return (ServerList lab_frame (lab_servers 0), [Connecting inf user cmd]).
Proof.
  destruct (proj1 (proj2 (proj2 (proj1
             (single_user_goes_straight_to_connect home_is_root show
                lab_frame (lab_servers 0) legacy_server eq_refl)
             {| ip := JStr "10.0.0.5"; description := JStr "N/A"; port := JInt 22 |}
             (legacy_user [("ip"%string, JStr "10.0.0.5");
                           ("username"%string, JStr "root");
                           ("key_path"%string, JStr "~/.ssh/id_ed25519")]
                          (JStr "root"))
             eq_refl))) eq_refl legacy_key_expands) as [cmd Hcmd].
  eexists. eexists. exists cmd. split; [reflexivity | exact Hcmd].
Defined.

Lemma confirm_on_nul_named_empty_network_raises_witness :
  show (JStr nul_name) = nul_name
  /\ run every_key_on_disk home_is_root show (inventory [nul_named_network])
        [{| height := 7; takes := roomy; key := ENTER |}]
     = Return (Blocked (NoServers {| networks := JList [nul_named_network];
                                     network_row := 0 |} nul_named_network),
               [Drawn (Menu "SELECT NETWORK ZONE" []
                            "↑/↓: Navigate | ENTER: Select | Q: Quit")])
  /\ run every_key_on_disk home_is_root show (inventory [nul_named_network])
        [{| height := 7; takes := roomy; key := ENTER |}; any_key]
     = Raise ValueError.
Proof.
  split; [reflexivity|]. split.
  - exact (proj1 (proj2 (confirm_on_nul_named_empty_network_raises home_is_root show
             every_key_on_disk 7 roomy any_key eq_refl)) (Z.le_refl 7)).
  - exact (proj2 (proj2 (confirm_on_nul_named_empty_network_raises home_is_root show
             every_key_on_disk 7 roomy any_key eq_refl))).
Defined.

(** ** Further properties of the code *)

(** *** What validate_config reports *)

Section Reports.

Variable path_exists : string -> option bool.
Variable expanduser : string -> option string.
Variable py_str : json -> string.

Lemma validate_config_visits_network config idx net errs :
  network_at config idx = Some net ->
  validate_config path_exists expanduser py_str config = Return errs ->
  exists e,
    validate_network path_exists expanduser py_str idx net = Return e /\ incl e errs.
Proof.
  unfold network_at. intros Hat H.
  destruct config as [| | | | | |items]; try discriminate.
  cbn in H.
  destruct (lookup "networks" items) as [[| | | | |nets|]|]; try discriminate.
  exact (for_enumerate_nth _ _ _ _ _ _ H Hat).
Qed.

Lemma required_fields_reported pre net :
  forall fields errs field,
    required_fields_errors pre fields net = Return errs ->
    In field fields ->
    py_in field net = Return false ->
    In (missing_field_msg pre field) errs.
Proof.
  induction fields as [|f fields IH]; intros errs field H Hin Hno; [destruct Hin|].
  cbn in H. split_result H. inversion H; subst; clear H.
  apply in_or_app. destruct Hin as [-> | Hin].
  - left. rewrite Hno in E. inversion E; subst. now left.
  - right. exact (IH a0 field eq_refl Hin Hno).
Qed.

(** X1: A network that lacks [name] or [servers] is reported with its index,
    whatever else the inventory holds, whenever a list is returned. *)
Theorem missing_network_field_is_reported :
  forall config idx net field errs,
    network_at config idx = Some net ->
    In field required_network_fields ->
    py_in field net = Return false ->
    validate_config path_exists expanduser py_str config = Return errs ->
    In (missing_field_msg (net_prefix idx) field) errs.
Proof.
  intros config idx net field errs Hat Hin Hno H.
  destruct (validate_config_visits_network _ _ _ _ Hat H) as [e [He Hincl]].
  apply Hincl. unfold validate_network in He.
  destruct (required_fields_errors (net_prefix idx) required_network_fields net)
    as [fe|] eqn:Hfe; cbn [bind] in He; [|discriminate].
  pose proof (required_fields_reported _ _ _ _ _ Hfe Hin Hno) as Hmsg.
  split_result He; [destruct a0; split_result He|];
    inversion He; subst; try (apply in_or_app; left); exact Hmsg.
Qed.

(** X2: A server without [ip] is reported with the indices of its network and
    of itself. *)
Theorem missing_ip_is_reported :
  forall config idx srv_idx server errs,
    server_at config idx srv_idx = Some server ->
    py_in "ip" server = Return false ->
    validate_config path_exists expanduser py_str config = Return errs ->
    In (missing_field_msg (srv_prefix idx srv_idx) "ip") errs.
Proof.
  intros config idx srv_idx server errs Hat Hno H.
  destruct (validate_config_visits path_exists expanduser py_str _ _ _ _ _ Hat H)
    as [e [He Hincl]].
  apply Hincl. unfold validate_server in He. rewrite Hno in He. cbn [bind] in He.
  split_result He. inversion He; subst. now left.
Qed.

(** [validate_port], [key_path_errors] and [validate_server] on a record. *)
Lemma validate_port_record idx srv_idx items :
  validate_port py_str idx srv_idx (JObj items)
  = Return (if port_checked items then []
            else match lookup "port" items with
                 | Some v => [invalid_port_msg py_str idx srv_idx v]
                 | None => []
                 end).
Proof.
  unfold validate_port, port_checked. cbn.
  destruct (lookup "port" items) as [v|]; [|reflexivity]. cbn.
  destruct v; cbn; try reflexivity;
    destruct (1 <=? _); destruct (_ <=? 65535); reflexivity.
Qed.

Lemma key_path_errors_record pre items e :
  key_path_errors path_exists expanduser pre (JObj items) = Return e ->
  (key_checked path_exists expanduser items = true /\ e = [])
  \/ (exists s expanded,
        lookup "key_path" items = Some (JStr s) /\ s <> EmptyString
        /\ expanduser s = Some expanded
        /\ path_exists expanded = Some false
        /\ key_checked path_exists expanduser items = false
        /\ e = [key_not_found_msg pre s]).
Proof.
  unfold key_path_errors, key_checked. cbn.
  destruct (lookup "key_path" items) as [v|]; cbn; [|intro H; inversion H; now left].
  destruct v; cbn;
    try (intro H; split_result H; try discriminate; inversion H; now left).
  destruct (String.eqb_spec s EmptyString); cbn.
  - intro H; inversion H; now left.
  - destruct (expanduser s) as [expanded|] eqn:He; [|discriminate].
    destruct (path_exists expanded) as [[|]|] eqn:Hp; intro H; inversion H; subst.
    + now left.
    + right. exists s, expanded. repeat split; assumption.
Qed.

Lemma validate_server_record idx srv_idx items e :
  validate_server path_exists expanduser py_str idx srv_idx (JObj items) = Return e ->
  exists users_errs key_errs,
    (if has_key "users" items
     then validate_users path_exists expanduser idx srv_idx (JObj items) = Return users_errs
     else users_errs = [])
    /\ (if has_key "username" items
        then key_path_errors path_exists expanduser (srv_prefix idx srv_idx) (JObj items)
             = Return key_errs
        else key_errs = [])
    /\ e = (if has_key "ip" items then []
            else [missing_field_msg (srv_prefix idx srv_idx) "ip"])
           ++ (if negb (has_key "username" items) && negb (has_key "users" items)
               then [neither_msg idx srv_idx] else [])
           ++ (if has_key "username" items && has_key "users" items
               then [both_msg idx srv_idx] else [])
           ++ users_errs
           ++ (if port_checked items then []
               else match lookup "port" items with
                    | Some v => [invalid_port_msg py_str idx srv_idx v]
                    | None => []
                    end)
           ++ key_errs.
Proof.
  unfold validate_server. cbn [py_in bind]. fold (has_key "ip" items).
  fold (has_key "username" items). fold (has_key "users" items).
  rewrite validate_port_record. cbn [bind].
  intro H.
  destruct (has_key "users" items); destruct (has_key "username" items);
    split_result H;
    repeat match goal with
      | E : Return _ = Return _ |- _ => inversion E; subst; clear E
      end;
    do 2 eexists; repeat split; try eassumption; reflexivity.
Qed.

Lemma validate_users_record idx srv_idx items v :
  lookup "users" items = Some v ->
  validate_users path_exists expanduser idx srv_idx (JObj items)
  = match v with
    | JList [] => Return [users_empty_msg idx srv_idx]
    | JList usrs => for_enumerate (validate_user path_exists expanduser idx srv_idx) 0%nat usrs
    | _ => Return [users_not_array_msg idx srv_idx]
    end.
Proof.
  intro H. unfold validate_users. cbn [py_getitem]. rewrite H. reflexivity.
Qed.

Lemma validate_config_visits_user config idx srv_idx user_idx user errs :
  user_at config idx srv_idx user_idx = Some user ->
  validate_config path_exists expanduser py_str config = Return errs ->
  exists e,
    validate_user path_exists expanduser idx srv_idx user_idx user = Return e
    /\ incl e errs.
Proof.
  unfold user_at. intros Hat H.
  destruct (server_at config idx srv_idx) as [[| | | | | |items]|] eqn:Hsrv;
    try discriminate.
  destruct (lookup "users" items) as [[| | | | |usrs|]|] eqn:Husers;
    try discriminate.
  destruct (validate_config_visits path_exists expanduser py_str _ _ _ _ _ Hsrv H)
    as [es [Hes Hincl]].
  apply validate_server_record in Hes.
  destruct Hes as [eu [ek [Hu [_ ->]]]].
  unfold has_key in Hu. rewrite Husers in Hu.
  rewrite (validate_users_record _ _ _ _ Husers) in Hu.
  destruct usrs as [|u usrs]; [destruct user_idx; discriminate|].
  destruct (for_enumerate_nth _ _ _ _ _ _ Hu Hat) as [e [He Hincl']].
  exists e. split; [exact He|].
  intros m Hm. apply Hincl. apply Hincl' in Hm.
  do 3 (apply in_or_app; right). apply in_or_app. now left.
Qed.

(** X3: A user without [username] is reported with its three indices. *)
Theorem missing_username_is_reported :
  forall config idx srv_idx user_idx user errs,
    user_at config idx srv_idx user_idx = Some user ->
    py_in "username" user = Return false ->
    validate_config path_exists expanduser py_str config = Return errs ->
    In (missing_field_msg (user_prefix idx srv_idx user_idx) "username") errs.
Proof.
  intros config idx srv_idx user_idx user errs Hat Hno H.
  destruct (validate_config_visits_user _ _ _ _ _ _ Hat H) as [e [He Hincl]].
  apply Hincl. unfold validate_user in He. rewrite Hno in He. cbn [bind] in He.
  split_result He. inversion He; subst. now left.
Qed.

(** X4: A stored port that is neither null nor an [int] instance within
    1-65535 is reported, with the stored value in the message. *)
Theorem invalid_port_is_reported :
  forall config idx srv_idx items v errs,
    server_at config idx srv_idx = Some (JObj items) ->
    lookup "port" items = Some v ->
    port_checked items = false ->
    validate_config path_exists expanduser py_str config = Return errs ->
    In (invalid_port_msg py_str idx srv_idx v) errs.
Proof.
  intros config idx srv_idx items v errs Hat Hv Hbad H.
  destruct (validate_config_visits path_exists expanduser py_str _ _ _ _ _ Hat H)
    as [e [He Hincl]].
  apply Hincl. apply validate_server_record in He.
  destruct He as [eu [ek [_ [_ ->]]]]. rewrite Hbad, Hv.
  do 4 (apply in_or_app; right). apply in_or_app. left. now left.
Qed.

(** X5: A [users] field that is not a list, or is the empty list, is reported. *)
Theorem bad_users_field_is_reported :
  forall config idx srv_idx items v errs,
    server_at config idx srv_idx = Some (JObj items) ->
    lookup "users" items = Some v ->
    validate_config path_exists expanduser py_str config = Return errs ->
    match v with
    | JList [] => In (users_empty_msg idx srv_idx) errs
    | JList _ => True
    | _ => In (users_not_array_msg idx srv_idx) errs
    end.
Proof.
  intros config idx srv_idx items v errs Hat Hv H.
  destruct (validate_config_visits path_exists expanduser py_str _ _ _ _ _ Hat H)
    as [e [He Hincl]].
  apply validate_server_record in He.
  destruct He as [eu [ek [Hu [_ ->]]]].
  unfold has_key in Hu. rewrite Hv in Hu.
  rewrite (validate_users_record _ _ _ _ Hv) in Hu.
  assert (Hin : forall m, In m eu -> In m errs).
  { intros m Hm. apply Hincl.
    do 3 (apply in_or_app; right). apply in_or_app. now left. }
  destruct v as [| | | | |[|u usrs]|]; try exact I;
    inversion Hu; subst; apply Hin; now left.
Qed.

(** X6: A key file that does not exist (the path expands, and nothing is
    there) is reported under the path as written: for a user of a [users]
    list with the user's indices, for a legacy server with the server's. *)
Theorem missing_key_file_is_reported :
  forall config errs s expanded,
    validate_config path_exists expanduser py_str config = Return errs ->
    s <> EmptyString ->
    expanduser s = Some expanded ->
    path_exists expanded = Some false ->
    (forall idx srv_idx items,
        server_at config idx srv_idx = Some (JObj items) ->
        has_key "username" items = true ->
        lookup "key_path" items = Some (JStr s) ->
        In (key_not_found_msg (srv_prefix idx srv_idx) s) errs)
    /\ (forall idx srv_idx user_idx items,
          user_at config idx srv_idx user_idx = Some (JObj items) ->
          lookup "key_path" items = Some (JStr s) ->
          In (key_not_found_msg (user_prefix idx srv_idx user_idx) s) errs).
Proof.
  intros config errs s expanded H Hs Hexp Hp. split.
  - intros idx srv_idx items Hat Hname Hkey.
    destruct (validate_config_visits path_exists expanduser py_str _ _ _ _ _ Hat H)
      as [e [He Hincl]].
    apply Hincl. apply validate_server_record in He.
    destruct He as [eu [ek [_ [Hk ->]]]]. rewrite Hname in Hk.
    apply key_path_errors_record in Hk.
    destruct Hk as [[Hok _] | [s' [q [Hs' [_ [_ [_ [_ ->]]]]]]]].
    + unfold key_checked in Hok. rewrite Hkey, Hexp, Hp in Hok.
      destruct (String.eqb_spec s EmptyString); [contradiction | discriminate].
    + rewrite Hkey in Hs'. inversion Hs'; subst.
      do 5 (apply in_or_app; right). now left.
  - intros idx srv_idx user_idx items Hat Hkey.
    destruct (validate_config_visits_user _ _ _ _ _ _ Hat H) as [e [He Hincl]].
    apply Hincl. unfold validate_user in He. cbn [py_in bind] in He.
    split_result He. inversion He; subst.
    apply key_path_errors_record in E.
    destruct E as [[Hok _] | [s' [q [Hs' [_ [_ [_ [_ ->]]]]]]]].
    + unfold key_checked in Hok. rewrite Hkey, Hexp, Hp in Hok.
      destruct (String.eqb_spec s EmptyString); [contradiction | discriminate].
    + rewrite Hkey in Hs'. inversion Hs'; subst.
      apply in_or_app. right. now left.
Qed.

(** *** What a validation without message guarantees, and what it accepts *)

Lemma for_enumerate_clean body :
  forall l start,
    for_enumerate body start l = Return [] ->
    Forall (fun x => exists i, body i x = Return []) l.
Proof.
  induction l as [|a l IH]; intros start H; [constructor|].
  cbn in H. split_result H. inversion H as [Hnil].
  apply app_eq_nil in Hnil. destruct Hnil as [-> ->].
  constructor; [eauto|]. exact (IH (S start) E0).
Qed.

Lemma for_enumerate_all_clean body :
  forall l start,
    (forall i x, In x l -> body i x = Return []) ->
    for_enumerate body start l = Return [].
Proof.
  induction l as [|a l IH]; intros start Hall; [reflexivity|].
  cbn. rewrite (Hall start a (or_introl eq_refl)). cbn.
  rewrite IH; [reflexivity|]. intros i x Hx. apply Hall. now right.
Qed.

Lemma key_checked_clean pre items :
  key_checked path_exists expanduser items = true ->
  key_path_errors path_exists expanduser pre (JObj items) = Return [].
Proof.
  unfold key_checked, key_path_errors. cbn.
  destruct (lookup "key_path" items) as [v|]; cbn; [|reflexivity].
  destruct v; cbn; intro H; try rewrite H; try reflexivity;
    try (apply negb_true_iff in H; cbn in H; rewrite H; reflexivity).
  destruct (String.eqb_spec s EmptyString); cbn in *; [reflexivity|].
  destruct (expanduser s) as [expanded|]; [|discriminate].
  destruct (path_exists expanded) as [[|]|]; [reflexivity | discriminate | discriminate].
Qed.

Lemma validate_user_clean idx srv_idx user_idx user :
  validate_user path_exists expanduser idx srv_idx user_idx user = Return [] ->
  user_checked path_exists expanduser user.
Proof.
  intro H. unfold validate_user in H.
  destruct (py_in "username" user) as [b|] eqn:Hb; cbn [bind] in H; [|discriminate].
  split_result H. inversion H as [Hnil].
  apply app_eq_nil in Hnil. destruct Hnil as [Hname ->].
  split.
  - first [exact Hb | destruct b; [exact Hb | discriminate]].
  - intros items ->. apply key_path_errors_record in E.
    destruct E as [[Hok _] | [s [q [_ [_ [_ [_ [_ Hbad]]]]]]]];
      [exact Hok | discriminate].
Qed.

Lemma validate_server_clean_record idx srv_idx items :
  validate_server path_exists expanduser py_str idx srv_idx (JObj items) = Return [] ->
  server_checked path_exists expanduser items.
Proof.
  intro H. apply validate_server_record in H.
  destruct H as [eu [ek [Hu [Hk Hnil]]]]. symmetry in Hnil.
  repeat (apply app_eq_nil in Hnil; destruct Hnil as [? Hnil]). subst ek.
  unfold server_checked, has_key in *.
  assert (Hport : port_checked items = true).
  { destruct (port_checked items) eqn:Hp; [reflexivity|].
    unfold port_checked in Hp.
    destruct (lookup "port" items); [discriminate | discriminate]. }
  split; [|split; [exact Hport|]].
  - destruct (lookup "ip" items); [discriminate | discriminate].
  - destruct (lookup "username" items) as [name|] eqn:Hname;
      destruct (lookup "users" items) as [v|] eqn:Husers;
      try discriminate.
    + left. repeat split; try discriminate.
      apply key_path_errors_record in Hk.
      destruct Hk as [[Hok _] | [s [q [_ [_ [_ [_ [_ Hbad]]]]]]]];
        [exact Hok | discriminate].
    + right. split; [reflexivity|].
      rewrite (validate_users_record _ _ _ _ Husers) in Hu. subst eu.
      destruct v as [| | | | |[|u usrs]|]; try discriminate.
      exists u, usrs. split; [reflexivity|].
      apply for_enumerate_clean in Hu.
      eapply Forall_impl; [|exact Hu].
      intros x [i Hx]. now apply validate_user_clean in Hx.
Qed.

(** X7: When validation returns no message, every server record it met has an
    [ip], a port that is absent, null or an [int] instance within
    1-65535, and either a [username] with a checked key and no [users], or
    no [username] and a non-empty [users] list whose members each have a
    [username] and a checked key. *)
Theorem validated_server_is_checked :
  forall config idx srv_idx items,
    validate_config path_exists expanduser py_str config = Return [] ->
    server_at config idx srv_idx = Some (JObj items) ->
    server_checked path_exists expanduser items.
Proof.
  intros config idx srv_idx items H Hat.
  destruct (validate_config_visits path_exists expanduser py_str _ _ _ _ _ Hat H)
    as [e [He Hincl]].
  apply incl_l_nil in Hincl. subst e.
  now apply validate_server_clean_record in He.
Qed.

Lemma validate_network_clean idx net :
  validate_network path_exists expanduser py_str idx net = Return [] ->
  exists fields srvs,
    net = JObj fields
    /\ lookup "name" fields <> None
    /\ lookup "servers" fields = Some (JList srvs)
    /\ for_enumerate (validate_server path_exists expanduser py_str idx) 0%nat srvs = Return [].
Proof.
  intro H. unfold validate_network in H.
  destruct (required_fields_errors (net_prefix idx) required_network_fields net)
    as [fe|] eqn:Hfe; cbn [bind] in H; [|discriminate].
  destruct (py_in "servers" net) as [hs|] eqn:Hs; cbn [bind] in H; [|discriminate].
  destruct hs.
  - destruct net as [| | | | | |fields]; try discriminate.
    cbn in H, Hfe, Hs.
    destruct (lookup "servers" fields) as [v|] eqn:Hv; [|discriminate].
    cbn in H, Hfe.
    destruct v as [| | | | |srvs|];
      try (inversion H as [Hnil]; apply app_eq_nil in Hnil;
           destruct Hnil; discriminate).
    split_result H. inversion H as [Hnil].
    apply app_eq_nil in Hnil. destruct Hnil as [-> ->].
    exists fields, srvs.
    split; [reflexivity|]. split; [|split; [exact Hv | exact E]].
    destruct (lookup "name" fields); [discriminate|].
    inversion Hfe.
  - inversion H; subst. exfalso.
    cbn in Hfe. rewrite Hs in Hfe. cbn in Hfe.
    split_result Hfe. inversion Hfe as [Hnil].
    apply app_eq_nil in Hnil. destruct Hnil as [_ Hnil]. discriminate.
Qed.

(** X8: When validation returns no message, every member of [networks] is a
    record with a [name] and a list under [servers], although only the
    presence of the two keys is tested. *)
Theorem validated_network_is_a_record :
  forall config idx net,
    validate_config path_exists expanduser py_str config = Return [] ->
    network_at config idx = Some net ->
    exists fields srvs,
      net = JObj fields
      /\ lookup "name" fields <> None
      /\ lookup "servers" fields = Some (JList srvs).
Proof.
  intros config idx net H Hat.
  destruct (validate_config_visits_network _ _ _ _ Hat H) as [e [He Hincl]].
  apply incl_l_nil in Hincl. subst e.
  apply validate_network_clean in He.
  destruct He as [fields [srvs [? [? [? _]]]]]. eauto.
Qed.

Lemma validate_user_accepts idx srv_idx user_idx user :
  user_checked path_exists expanduser user ->
  is_record user = true ->
  validate_user path_exists expanduser idx srv_idx user_idx user = Return [].
Proof.
  intros [Hname Hkey] Hrec.
  destruct user as [| | | | | |items]; try discriminate.
  unfold validate_user. rewrite Hname. cbn [bind].
  rewrite (key_checked_clean _ _ (Hkey items eq_refl)). reflexivity.
Qed.

Lemma validate_server_accepts idx srv_idx server :
  server_accepted path_exists expanduser server ->
  validate_server path_exists expanduser py_str idx srv_idx server = Return [].
Proof.
  intros [items [-> [[Hip [Hport Hshape]] Hrec]]].
  unfold validate_server. cbn [py_in bind].
  rewrite validate_port_record, Hport. cbn [bind].
  destruct (lookup "ip" items) as [ipv|]; [|contradiction].
  destruct Hshape as [[Husers [Hname Hkey]] | [Hname [u [usrs [Husers Hall]]]]].
  - rewrite Husers. cbn [bind].
    destruct (lookup "username" items) as [name|]; [|contradiction].
    rewrite (key_checked_clean _ _ Hkey). reflexivity.
  - rewrite Hname, Husers.
    rewrite (validate_users_record _ _ _ _ Husers).
    rewrite for_enumerate_all_clean; [reflexivity|].
    intros i x Hx. apply validate_user_accepts.
    + rewrite Forall_forall in Hall. now apply Hall.
    + specialize (Hrec _ Husers). rewrite forallb_forall in Hrec. now apply Hrec.
Qed.

Lemma validate_network_accepts idx net :
  network_accepted path_exists expanduser net ->
  validate_network path_exists expanduser py_str idx net = Return [].
Proof.
  intros [fields [srvs [-> [Hname [Hsrvs Hall]]]]].
  unfold validate_network, required_network_fields.
  cbn [required_fields_errors py_in py_getitem bind].
  rewrite Hsrvs.
  destruct (lookup "name" fields); [|contradiction].
  cbn [bind app].
  rewrite for_enumerate_all_clean; [reflexivity|].
  intros i x Hx. apply validate_server_accepts.
  rewrite Forall_forall in Hall. now apply Hall.
Qed.

(** X9: An inventory of records that meets the schema is accepted: when every
    network has a [name] and a [servers] list, and every server an [ip],
    a checked port, and exactly one credential shape with checked keys,
    [validate_config] returns no message. *)
Theorem schema_is_accepted :
  forall items nets,
    lookup "networks" items = Some (JList nets) ->
    Forall (network_accepted path_exists expanduser) nets ->
    validate_config path_exists expanduser py_str (JObj items) = Return [].
Proof.
  intros items nets Hnets Hall. cbn. rewrite Hnets.
  apply for_enumerate_all_clean. intros i x Hx.
  apply validate_network_accepts.
  rewrite Forall_forall in Hall. now apply Hall.
Qed.

End Reports.

(** *** Ports, normalised servers and sessions *)

Section Sessions.

Variable path_exists : string -> option bool.
Variable expanduser : string -> option string.
Variable py_str : json -> string.

(** X10: Whatever a server record stores under [port], [get_port] answers an
    [int] instance within 1-65535, and a record that stores this answer
    resolves to it again. *)
Theorem get_port_is_always_a_port :
  forall items,
    exists p,
      get_port (JObj items) = Return p
      /\ isinstance_int p = true
      /\ 1 <= int_value p <= 65535
      /\ forall other, lookup "port" other = Some p ->
                       get_port (JObj other) = Return p.
Proof.
  intro items. unfold get_port. cbn [py_get bind].
  assert (Hdefault : exists p,
            Return (JInt 22) = Return p /\ isinstance_int p = true
            /\ 1 <= int_value p <= 65535
            /\ forall other, lookup "port" other = Some p ->
                 (port <- match lookup "port" other with
                          | Some x => Return x
                          | None => Return (JInt 22)
                          end ;;
                  if negb (isinstance_int port)
                     || negb ((1 <=? int_value port) && (int_value port <=? 65535))
                  then Return (JInt 22) else Return port) = Return p).
  { exists (JInt 22). repeat split; cbn; try lia.
    intros other ->. reflexivity. }
  destruct (lookup "port" items) as [v|]; [|exact Hdefault]. cbn [bind].
  destruct (isinstance_int v) eqn:Hint; cbn [negb orb]; [|exact Hdefault].
  destruct (Z.leb_spec 1 (int_value v)); cbn [andb negb]; [|exact Hdefault].
  destruct (Z.leb_spec (int_value v) 65535); cbn [negb]; [|exact Hdefault].
  exists v. repeat split; try assumption.
  intros other ->. cbn [bind]. rewrite Hint. cbn [negb orb].
  destruct (Z.leb_spec 1 (int_value v)); [|lia].
  destruct (Z.leb_spec (int_value v) 65535); [|lia]. reflexivity.
Qed.

Lemma get_port_checked items :
  port_checked items = true ->
  get_port (JObj items)
  = Return match lookup "port" items with
           | None | Some JNull => JInt 22
           | Some v => v
           end.
Proof.
  unfold port_checked, get_port. cbn [py_get bind].
  destruct (lookup "port" items) as [v|]; [|reflexivity]. cbn [bind].
  destruct v; cbn; try discriminate; try reflexivity; intro H; rewrite H; reflexivity.
Qed.

Lemma normalize_with_users items ip_v v p :
  lookup "ip" items = Some ip_v ->
  lookup "users" items = Some v ->
  get_port (JObj items) = Return p ->
  normalize_server_format (JObj items)
  = Return ({| ip := ip_v;
               description := or_default (lookup "description" items) (JStr "N/A");
               port := p |}, v).
Proof.
  intros Hip Husers Hp. unfold normalize_server_format.
  cbn [py_getitem py_get py_in bind]. rewrite Hip. cbn [bind].
  rewrite Hp. cbn [bind]. rewrite Husers.
  destruct (lookup "description" items); reflexivity.
Qed.

(** X11: On a server record [normalize_server_format] raises nothing but
    KeyError, and raises it exactly when [ip] is missing or both [users]
    and [username] are; when it returns, [ip] and [description] are the
    stored ones ("N/A" without description), the port is what [get_port]
    answers, and a stored [users] value is handed back as it is, also
    when a [username] stands beside it. *)
Theorem normalize_outcomes :
  forall items,
    (normalize_server_format (JObj items) = Raise KeyError
     <-> lookup "ip" items = None
         \/ (lookup "users" items = None /\ lookup "username" items = None))
    /\ (forall e, normalize_server_format (JObj items) = Raise e -> e = KeyError)
    /\ (forall inf usrs,
          normalize_server_format (JObj items) = Return (inf, usrs) ->
          lookup "ip" items = Some (ip inf)
          /\ description inf = or_default (lookup "description" items) (JStr "N/A")
          /\ get_port (JObj items) = Return (port inf)
          /\ (forall v, lookup "users" items = Some v -> usrs = v)
          /\ (lookup "users" items = None ->
              exists username,
                lookup "username" items = Some username
                /\ usrs = JList [legacy_user items username])).
Proof.
  intro items. destruct (get_port_returns items) as [p Hp].
  unfold normalize_server_format, legacy_user, or_default.
  cbn [py_getitem py_get py_in bind].
  rewrite Hp.
  destruct (lookup "ip" items) as [ip_v|]; cbn [bind].
  - destruct (lookup "users" items) as [v|]; cbn [bind].
    + destruct (lookup "description" items); cbn [bind];
        (split; [split; [discriminate | intros [H | [H _]]; discriminate]|]);
        (split; [discriminate|]);
        intros inf usrs H; inversion H; subst; cbn;
        repeat split; try discriminate; congruence.
    + destruct (lookup "username" items) as [name|]; cbn [bind].
      * destruct (lookup "description" items); destruct (lookup "key_path" items);
          cbn [bind];
          (split; [split; [discriminate | intros [H | [_ H]]; discriminate]|]);
          (split; [discriminate|]);
          intros inf usrs H; inversion H; subst; cbn;
          (repeat split; [discriminate|]); intros _; exists name; split; reflexivity.
      * destruct (lookup "description" items); cbn [bind];
          (split; [split; [right; now split | reflexivity]|]);
          (split; [congruence | discriminate]).
  - split; [split; [now left | reflexivity]|].
    split; [congruence | discriminate].
Qed.

(** X12: The command of a session always names the resolved port and ends with
    [username@ip]; it carries [-i] and the expanded path exactly when the
    user's [key_path] is a non-empty string, whose home shorthand has then
    been expanded. *)
Theorem ssh_command_shape :
  forall inf user cmd,
    connect_ssh expanduser py_str inf user = Return cmd ->
    exists username key_path,
      py_getitem user "username" = Return username
      /\ py_get user "key_path" JNull = Return key_path
      /\ let login := (py_str username ++ "@" ++ py_str (ip inf))%string in
         (truthy key_path = false
          /\ cmd = ["ssh"; "-p"; py_str (port inf); login]%string)
         \/ (exists s expanded,
               key_path = JStr s /\ s <> EmptyString
               /\ expanduser s = Some expanded
               /\ cmd = ["ssh"; "-p"; py_str (port inf); "-i";
                         expanded; login]%string).
Proof.
  intros inf user cmd H. unfold connect_ssh in H.
  destruct (py_getitem user "username") as [username|] eqn:Hname;
    cbn [bind] in H; [|discriminate].
  destruct (py_get user "description" (JStr "N/A")) as [d|];
    cbn [bind] in H; [|discriminate].
  unfold get_auth_method_display in H.
  destruct (py_get user "key_path" JNull) as [key_path|] eqn:Hkey;
    cbn [bind] in H; [|discriminate].
  exists username, key_path. split; [reflexivity|]. split; [reflexivity|].
  destruct (truthy key_path) eqn:T.
  - destruct key_path; try discriminate.
    destruct (expanduser s) as [expanded|] eqn:Hexp; [|discriminate].
    cbn in H. inversion H; subst.
    right. exists s, expanded. repeat split; [|exact Hexp].
    intros ->. discriminate.
  - cbn in H. inversion H; subst. now left.
Qed.

Lemma connect_ssh_checked inf items username :
  lookup "username" items = Some username ->
  key_checked path_exists expanduser items = true ->
  exists cmd, connect_ssh expanduser py_str inf (JObj items) = Return cmd.
Proof.
  intros Hname Hkey. unfold connect_ssh, get_auth_method_display.
  cbn [py_getitem py_get bind]. rewrite Hname. cbn [bind].
  unfold key_checked in Hkey.
  destruct (lookup "description" items); cbn [bind];
    destruct (lookup "key_path" items) as [v|]; cbn [bind truthy];
    try (eexists; reflexivity);
    destruct v; cbn in Hkey |- *; try discriminate;
    try (apply negb_true_iff in Hkey; rewrite Hkey);
    try (eexists; reflexivity);
    (destruct (String.eqb s EmptyString); cbn in Hkey |- *;
     [eexists; reflexivity|]);
    (destruct (expanduser s); [eexists; reflexivity | discriminate]).
Qed.

Lemma legacy_user_checked items username :
  key_checked path_exists expanduser items = true ->
  exists fields,
    legacy_user items username = JObj fields
    /\ lookup "username" fields = Some username
    /\ key_checked path_exists expanduser fields = true.
Proof.
  intro H. eexists. split; [reflexivity|]. split; [reflexivity|].
  unfold key_checked in *. cbn. unfold or_default.
  destruct (lookup "key_path" items); [exact H | reflexivity].
Qed.

(** X13: After a validation without message, every server record of the
    inventory normalises to a non-empty list of users, its port is the
    stored one unless that is absent or null, and a session can be
    started for each user that is a record: [connect_ssh] returns its
    command. *)
Theorem validated_server_connects :
  forall config idx srv_idx items,
    validate_config path_exists expanduser py_str config = Return [] ->
    server_at config idx srv_idx = Some (JObj items) ->
    exists inf u usrs,
      normalize_server_format (JObj items) = Return (inf, JList (u :: usrs))
      /\ port inf = match lookup "port" items with
                    | None | Some JNull => JInt 22
                    | Some v => v
                    end
      /\ forall user,
           In user (u :: usrs) -> is_record user = true ->
           exists cmd, connect_ssh expanduser py_str inf user = Return cmd.
Proof.
  intros config idx srv_idx items H Hat.
  destruct (validate_config_visits path_exists expanduser py_str _ _ _ _ _ Hat H)
    as [e [He Hincl]].
  apply incl_l_nil in Hincl. subst e.
  apply validate_server_clean_record in He.
  destruct He as [Hip [Hport Hshape]].
  destruct (lookup "ip" items) as [ip_v|] eqn:Eip; [|contradiction].
  pose proof (get_port_checked items Hport) as Hp.
  destruct Hshape as [[Husers [Hname Hkey]] | [Hname [u [usrs [Husers Hall]]]]].
  - destruct (lookup "username" items) as [name|] eqn:Ename; [|contradiction].
    destruct (normalize_legacy items ip_v name Eip Ename Husers) as [p [Hp' Hn]].
    rewrite Hp in Hp'. inversion Hp'; subst p.
    eexists. exists (legacy_user items name), []. split; [exact Hn|].
    split; [reflexivity|].
    intros user [<- | []] _.
    destruct (legacy_user_checked items name Hkey) as [fields [-> [Hn' Hk']]].
    now apply connect_ssh_checked with (username := name).
  - eexists. exists u, usrs.
    split; [exact (normalize_with_users items ip_v _ _ Eip Husers Hp)|].
    split; [reflexivity|].
    intros user Hin Hrec. rewrite Forall_forall in Hall.
    destruct (Hall user Hin) as [Huser Hkey].
    destruct user as [| | | | | |fields]; try discriminate.
    cbn in Huser.
    destruct (lookup "username" fields) as [name|] eqn:En; [|discriminate].
    apply connect_ssh_checked with (username := name); auto.
Qed.

End Sessions.

(** *** Keys and states *)

Section Keys.

Variable expanduser : string -> option string.
Variable py_str : json -> string.

Lemma quit_is_no_other_key q :
  is_quit q = true ->
  (q =? KEY_UP) = false /\ (q =? KEY_DOWN) = false /\ (q =? ENTER) = false.
Proof.
  unfold is_quit. intro H.
  apply orb_prop in H. destruct H as [H | H];
    [apply orb_prop in H; destruct H as [H | H]|];
    apply Z.eqb_eq in H; subst q; repeat split.
Qed.

Lemma moves_down_other_key k current_row items :
  (k =? KEY_DOWN) = false -> moves_down k current_row items = Return false.
Proof.
  intro H. unfold moves_down. rewrite H. reflexivity.
Qed.

(** X14: A key none of the loops tests for changes nothing and starts nothing;
    in the no-servers branch, where any key is awaited, it goes back to the
    network list like every other key. *)
Theorem unbound_key_changes_nothing :
  forall st k,
    is_bound k = false ->
    handle_key expanduser py_str st k
    = Return (match st with
              | NoServers nf _ => NetworkList nf
              | _ => st
              end, []).
Proof.
  intros st k H. unfold is_bound in H.
  apply orb_false_elim in H. destruct H as [H Hquit].
  apply orb_false_elim in H. destruct H as [H Henter].
  apply orb_false_elim in H. destruct H as [Hup Hdown].
  destruct st; cbn [handle_key]; try reflexivity;
    unfold network_key, server_key, user_key;
    rewrite Hup, (moves_down_other_key _ _ _ Hdown), Henter, Hquit; reflexivity.
Qed.

(** X15: A key starts at most one session, only the confirm key starts one, and
    the program is afterwards in the state it was in: after the session
    the same list is shown with the same cursor. *)
Theorem session_only_on_confirm :
  forall st k st' evs,
    handle_key expanduser py_str st k = Return (st', evs) ->
    evs = []
    \/ (k = ENTER /\ st' = st
        /\ exists inf user cmd,
             evs = [Connecting inf user cmd]
             /\ connect_ssh expanduser py_str inf user = Return cmd).
Proof.
  intros st k st' evs H.
  destruct st; cbn [handle_key] in H;
    try (inversion H; now left).
  - unfold network_key in H. split_result H; inversion H; now left.
  - unfold server_key in H. split_result H; inversion H; subst; try now left.
    right.
    match goal with E : (k =? ENTER) = true |- _ => apply Z.eqb_eq in E end.
    repeat split; eauto.
  - unfold user_key in H. split_result H; inversion H; subst; try now left.
    right.
    match goal with E : (k =? ENTER) = true |- _ => apply Z.eqb_eq in E end.
    repeat split; eauto.
Qed.

(** X16: Back undoes a confirm that went one level down: from the state the
    confirm key led to, Q, q or ESC leads to the very state the confirm
    key was pressed in, cursor included, and neither key starts a session. *)
Theorem back_undoes_confirm :
  forall st st' evs q,
    handle_key expanduser py_str st ENTER = Return (st', evs) ->
    (level st < level st')%nat ->
    is_quit q = true ->
    evs = [] /\ handle_key expanduser py_str st' q = Return (st, []).
Proof.
  intros st st' evs q H Hlevel Hq.
  destruct (quit_is_no_other_key q Hq) as [Hup [Hdown Henter]].
  destruct st; cbn [handle_key] in H.
  - unfold network_key in H. cbn in H. split_result H.
    inversion H; subst. split; [reflexivity|].
    match goal with
    | E : enter_server_selection _ _ = Return _ |- _ =>
        apply enter_server_selection_row in E;
        destruct E as [-> | [srvs [_ ->]]]
    end; cbn [handle_key]; [reflexivity|].
    unfold server_key. rewrite Hup, (moves_down_other_key _ _ _ Hdown), Henter, Hq.
    reflexivity.
  - inversion H; subst. cbn in Hlevel. lia.
  - unfold server_key in H. cbn in H. split_result H; inversion H; subst.
    + cbn in Hlevel. lia.
    + split; [reflexivity|]. cbn [handle_key].
      unfold user_key. rewrite Hup, (moves_down_other_key _ _ _ Hdown), Henter, Hq.
      reflexivity.
  - unfold user_key in H. cbn in H. split_result H; inversion H; subst.
    cbn in Hlevel. lia.
  - inversion H; subst. cbn in Hlevel. lia.
Qed.

End Keys.

(** *** No IndexError once a network is there *)

Lemma bind_no_index {A B : Type} (m : result A) (k : A -> result B) :
  m <> Raise IndexError ->
  (forall a, m = Return a -> k a <> Raise IndexError) ->
  bind m k <> Raise IndexError.
Proof.
  intros Hm Hk. destruct m as [a|e]; cbn.
  - now apply Hk.
  - intro H. apply Hm. inversion H. reflexivity.
Qed.

Lemma py_in_no_index k v : py_in k v <> Raise IndexError.
Proof. destruct v; discriminate. Qed.

Lemma py_getitem_no_index v k : py_getitem v k <> Raise IndexError.
Proof. destruct v; cbn; try discriminate. destruct (lookup k items); discriminate. Qed.

Lemma py_get_no_index v k d : py_get v k d <> Raise IndexError.
Proof. destruct v; cbn; try discriminate. destruct (lookup k items); discriminate. Qed.

Lemma py_len_no_index v : py_len v <> Raise IndexError.
Proof. destruct v; discriminate. Qed.

Lemma py_iter_no_index v : py_iter v <> Raise IndexError.
Proof. destruct v; discriminate. Qed.

Lemma py_ljust_no_index v w : py_ljust v w <> Raise IndexError.
Proof. destruct v; discriminate. Qed.

Lemma draw_header_no_index title : draw_header title <> Raise IndexError.
Proof. unfold draw_header. destruct (has_nul title); discriminate. Qed.

Lemma addstr_no_index t y x text : addstr t y x text <> Raise IndexError.
Proof.
  unfold addstr. destruct text; try discriminate.
  destruct (has_nul s); [discriminate|]. destruct (t y x s); discriminate.
Qed.

Lemma except_curses_no_index block :
  block <> Raise IndexError -> except_curses block <> Raise IndexError.
Proof.
  unfold except_curses. destruct block as [u|[]]; auto; discriminate.
Qed.

Lemma py_index_single v : py_len v = Return 1 -> py_index v 0 <> Raise IndexError.
Proof.
  destruct v; cbn; try discriminate.
  - destruct s as [|c s]; cbn; [discriminate|]. intros _.
    unfold seq_index. cbn. discriminate.
  - destruct l as [|x l]; cbn; [discriminate|]. intros _.
    unfold seq_index. cbn. discriminate.
Qed.

Lemma py_index_in_bounds l i :
  0 <= i < Z.of_nat (List.length l) ->
  exists x, py_index (JList l) i = Return x /\ In x l.
Proof.
  intro H. cbn. unfold seq_index.
  destruct (Z.leb_spec 0 i); [|lia].
  destruct (Z.ltb_spec i (Z.of_nat (List.length l))); [|lia]. cbn.
  destruct (nth_error l (Z.to_nat i)) as [x|] eqn:E.
  - exists x. split; [reflexivity|]. now apply nth_error_In in E.
  - apply nth_error_None in E. lia.
Qed.

Ltac no_index :=
  repeat first
    [ apply py_in_no_index | apply py_getitem_no_index | apply py_get_no_index
    | apply py_len_no_index | apply py_iter_no_index | apply py_ljust_no_index
    | apply draw_header_no_index | apply addstr_no_index
    | apply except_curses_no_index
    | discriminate
    | apply bind_no_index; [|intros]
    | match goal with
      | |- (match ?x with _ => _ end) <> _ => destruct x
      end ].

Lemma get_port_no_index server : get_port server <> Raise IndexError.
Proof. unfold get_port. no_index. Qed.

Lemma normalize_no_index server :
  normalize_server_format server <> Raise IndexError.
Proof. unfold normalize_server_format. no_index. Qed.

Lemma moves_down_list k current_row l :
  moves_down k current_row (JList l)
  = Return ((k =? KEY_DOWN) && (current_row <? Z.of_nat (List.length l) - 1)).
Proof.
  unfold moves_down. destruct (k =? KEY_DOWN); reflexivity.
Qed.

Section Safety.

Variable path_exists : string -> option bool.
Variable expanduser : string -> option string.
Variable py_str : json -> string.

Lemma get_auth_no_index user :
  get_auth_method_display expanduser user <> Raise IndexError.
Proof.
  unfold get_auth_method_display. no_index.
Qed.

Lemma connect_ssh_no_index inf user :
  connect_ssh expanduser py_str inf user <> Raise IndexError.
Proof. unfold connect_ssh. no_index. Qed.

Lemma network_rows_no_index t h cur :
  forall l idx, network_rows py_str t h cur idx l <> Raise IndexError.
Proof.
  induction l as [|x l IH]; intro idx; cbn [network_rows]; [discriminate|].
  no_index. apply IH.
Qed.

Lemma server_rows_no_index t h cur :
  forall l idx, server_rows py_str t h cur idx l <> Raise IndexError.
Proof.
  induction l as [|x l IH]; intro idx; cbn [server_rows]; [discriminate|].
  destruct (4 + idx * 3 >=? h - 4); [discriminate|].
  apply bind_no_index; [apply normalize_no_index|].
  intros [inf usrs] _.
  apply bind_no_index; [apply py_len_no_index|]. intros count Hcount.
  apply bind_no_index.
  - destruct (Z.eqb_spec count 1); [subst|discriminate].
    apply bind_no_index; [now apply py_index_single|]. intros. no_index.
  - intros. no_index. apply IH.
Qed.

Lemma user_rows_no_index t h cur :
  forall l idx, user_rows expanduser py_str t h cur idx l <> Raise IndexError.
Proof.
  induction l as [|x l IH]; intro idx; cbn [user_rows]; [discriminate|].
  no_index. apply IH.
Qed.

Lemma draw_no_index st h t : draw expanduser py_str st h t <> Raise IndexError.
Proof.
  destruct st; cbn [draw]; no_index;
    first [ apply network_rows_no_index | apply server_rows_no_index
          | apply user_rows_no_index ].
Qed.

Lemma validated_networks_passed items nets :
  lookup "networks" items = Some (JList nets) ->
  validate_config path_exists expanduser py_str (JObj items) = Return [] ->
  Forall (network_passed path_exists expanduser py_str) nets.
Proof.
  intros Hnets H. cbn in H. rewrite Hnets in H.
  apply for_enumerate_clean in H.
  eapply Forall_impl; [|exact H].
  intros net [idx Hnet].
  apply validate_network_clean in Hnet.
  destruct Hnet as [fields [srvs [-> [_ [Hsrvs Hall]]]]].
  exists fields, srvs. repeat split; [exact Hsrvs|].
  apply for_enumerate_clean in Hall.
  eapply Forall_impl; [|exact Hall].
  intros server [srv_idx Hs]. now exists idx, srv_idx.
Qed.

Lemma server_passed_users server inf usrs :
  server_passed path_exists expanduser py_str server ->
  normalize_server_format server = Return (inf, usrs) ->
  exists u rest, usrs = JList (u :: rest).
Proof.
  intros [idx [srv_idx Hv]] Hn.
  destruct server as [| | | | | |items]; try discriminate.
  apply validate_server_clean_record in Hv.
  destruct Hv as [Hip [_ Hshape]].
  destruct (lookup "ip" items) as [ip_v|] eqn:Eip; [|contradiction].
  destruct Hshape as [[Husers [Hname _]] | [_ [u [rest [Husers _]]]]].
  - destruct (lookup "username" items) as [name|] eqn:En; [|contradiction].
    destruct (normalize_legacy items ip_v name Eip En Husers) as [p [_ Hl]].
    rewrite Hl in Hn. inversion Hn; subst. eauto.
  - destruct (get_port_returns items) as [p Hp].
    rewrite (normalize_with_users items ip_v _ p Eip Husers Hp) in Hn.
    inversion Hn; subst. eauto.
Qed.

Lemma network_key_safe nf k :
  network_frame_ok path_exists expanduser py_str nf ->
  network_key nf k <> Raise IndexError
  /\ forall st evs, network_key nf k = Return (st, evs) ->
                    menu_invariant path_exists expanduser py_str st.
Proof.
  intros [nets [Hn [Hall Hr]]]. unfold network_key.
  destruct ((k =? KEY_UP) && (network_row nf >? 0)) eqn:Eup.
  - split; [discriminate|]. intros st evs H. inversion H; subst. cbn.
    apply andb_prop in Eup. destruct Eup as [_ Eup].
    exists nets. repeat split; try assumption; cbn; lia.
  - rewrite Hn, moves_down_list. cbn [bind].
    destruct ((k =? KEY_DOWN) && (network_row nf <? Z.of_nat (List.length nets) - 1))
      eqn:Edown.
    + split; [discriminate|]. intros st evs H. inversion H; subst. cbn.
      apply andb_prop in Edown. destruct Edown as [_ Edown].
      exists nets. repeat split; try assumption; cbn; lia.
    + destruct (k =? ENTER).
      * destruct (py_index_in_bounds nets (network_row nf) Hr) as [net [Hidx Hin]].
        rewrite Hidx. cbn [bind].
        rewrite Forall_forall in Hall.
        destruct (Hall net Hin) as [fields [srvs [-> [Hsrvs Hpassed]]]].
        unfold enter_server_selection. cbn [py_get bind]. rewrite Hsrvs.
        cbn [bind].
        assert (Hnf : network_frame_ok path_exists expanduser py_str nf).
        { exists nets. rewrite <- Forall_forall in Hall. now repeat split. }
        destruct srvs as [|s srvs]; cbn [truthy negb bind];
          (split; [discriminate|]); intros st evs H; inversion H; subst; cbn.
        -- exact Hnf.
        -- split; [exact Hnf|]. exists (s :: srvs).
           repeat split; try assumption; cbn [server_row List.length]; lia.
      * assert (Hnf : network_frame_ok path_exists expanduser py_str nf).
        { exists nets. now repeat split. }
        destruct (is_quit k); (split; [discriminate|]);
          intros st evs H; inversion H; subst; cbn; auto.
Qed.

Lemma server_key_safe nf sf k :
  network_frame_ok path_exists expanduser py_str nf ->
  server_frame_ok path_exists expanduser py_str sf ->
  server_key expanduser py_str nf sf k <> Raise IndexError
  /\ forall st evs, server_key expanduser py_str nf sf k = Return (st, evs) ->
                    menu_invariant path_exists expanduser py_str st.
Proof.
  intros Hnf [srvs [Hs [Hall Hr]]]. unfold server_key.
  destruct ((k =? KEY_UP) && (server_row sf >? 0)) eqn:Eup.
  - split; [discriminate|]. intros st evs H. inversion H; subst. cbn.
    apply andb_prop in Eup. destruct Eup as [_ Eup].
    split; [exact Hnf|]. exists srvs. repeat split; try assumption; cbn; lia.
  - rewrite Hs, moves_down_list. cbn [bind].
    destruct ((k =? KEY_DOWN) && (server_row sf <? Z.of_nat (List.length srvs) - 1))
      eqn:Edown.
    + split; [discriminate|]. intros st evs H. inversion H; subst. cbn.
      apply andb_prop in Edown. destruct Edown as [_ Edown].
      split; [exact Hnf|]. exists srvs. repeat split; try assumption; cbn; lia.
    + assert (Hsf : server_frame_ok path_exists expanduser py_str sf).
      { exists srvs. now repeat split. }
      destruct (k =? ENTER).
      * destruct (py_index_in_bounds srvs (server_row sf) Hr) as [server [Hidx Hin]].
        rewrite Hidx. cbn [bind].
        rewrite Forall_forall in Hall. specialize (Hall server Hin).
        destruct (normalize_server_format server) as [[inf usrs]|e] eqn:Hnorm;
          cbn [bind].
        -- destruct (server_passed_users server inf usrs Hall Hnorm)
             as [u [rest ->]].
           cbn [py_len bind].
           destruct (Z.of_nat (List.length (u :: rest)) =? 1) eqn:Eone.
           ++ destruct (py_index_in_bounds (u :: rest) 0) as [user [Hu _]];
                [cbn [List.length]; lia|].
              rewrite Hu. cbn [bind]. split.
              ** apply bind_no_index; [apply connect_ssh_no_index | discriminate].
              ** intros st evs H. split_result H. inversion H; subst. cbn. auto.
           ++ split; [discriminate|]. intros st evs H. inversion H; subst. cbn.
              repeat split; try assumption.
              exists (u :: rest). repeat split; cbn [user_row List.length]; lia.
        -- split; [|discriminate].
           intro H. apply (normalize_no_index server). rewrite Hnorm.
           inversion H. reflexivity.
      * destruct (is_quit k); (split; [discriminate|]);
          intros st evs H; inversion H; subst; cbn; auto.
Qed.

Lemma user_key_safe nf sf uf k :
  network_frame_ok path_exists expanduser py_str nf ->
  server_frame_ok path_exists expanduser py_str sf ->
  user_frame_ok uf ->
  user_key expanduser py_str nf sf uf k <> Raise IndexError
  /\ forall st evs, user_key expanduser py_str nf sf uf k = Return (st, evs) ->
                    menu_invariant path_exists expanduser py_str st.
Proof.
  intros Hnf Hsf [usrs [Hu Hr]]. unfold user_key.
  destruct ((k =? KEY_UP) && (user_row uf >? 0)) eqn:Eup.
  - split; [discriminate|]. intros st evs H. inversion H; subst. cbn.
    apply andb_prop in Eup. destruct Eup as [_ Eup].
    repeat split; try assumption. exists usrs. split; [assumption|]. cbn. lia.
  - rewrite Hu, moves_down_list. cbn [bind].
    destruct ((k =? KEY_DOWN) && (user_row uf <? Z.of_nat (List.length usrs) - 1))
      eqn:Edown.
    + split; [discriminate|]. intros st evs H. inversion H; subst. cbn.
      apply andb_prop in Edown. destruct Edown as [_ Edown].
      repeat split; try assumption. exists usrs. split; [reflexivity|]. cbn. lia.
    + assert (Huf : user_frame_ok uf).
      { exists usrs. now split. }
      destruct (k =? ENTER).
      * destruct (py_index_in_bounds usrs (user_row uf) Hr) as [user [Hidx _]].
        rewrite Hidx. cbn [bind]. split.
        -- apply bind_no_index; [apply connect_ssh_no_index | discriminate].
        -- intros st evs H. split_result H. inversion H; subst. cbn. auto.
      * destruct (is_quit k); (split; [discriminate|]);
          intros st evs H; inversion H; subst; cbn; auto.
Qed.

Lemma handle_key_safe st k :
  menu_invariant path_exists expanduser py_str st ->
  handle_key expanduser py_str st k <> Raise IndexError
  /\ forall st' evs, handle_key expanduser py_str st k = Return (st', evs) ->
                     menu_invariant path_exists expanduser py_str st'.
Proof.
  destruct st; cbn [menu_invariant handle_key].
  - apply network_key_safe.
  - intro H. split; [discriminate|]. intros st' evs E. now inversion E; subst.
  - intros [H1 H2]. now apply server_key_safe.
  - intros [H1 [H2 H3]]. now apply user_key_safe.
  - intros _. split; [discriminate|]. intros st' evs E. now inversion E; subst.
Qed.

Lemma run_menu_safe :
  forall inputs st,
    menu_invariant path_exists expanduser py_str st ->
    run_menu expanduser py_str st inputs <> Raise IndexError
    /\ forall st' evs, run_menu expanduser py_str st inputs = Return (st', evs) ->
                       menu_invariant path_exists expanduser py_str st'.
Proof.
  induction inputs as [|i inputs IH]; intros st Hinv; cbn [run_menu].
  - split; [discriminate|]. intros st' evs E. now inversion E; subst.
  - destruct (handle_key_safe st (key i) Hinv) as [Hno Hnext].
    unfold step.
    destruct (draw expanduser py_str st (height i) (takes i)) as [shown|e] eqn:Hdraw;
      cbn [bind].
    + destruct (handle_key expanduser py_str st (key i)) as [[st1 evs1]|e] eqn:Hkey;
        cbn [bind].
      * destruct (IH st1 (Hnext _ _ eq_refl)) as [Hno' Hnext'].
        destruct (run_menu expanduser py_str st1 inputs) as [[st2 evs2]|e] eqn:Hrun;
          cbn [bind].
        -- split; [discriminate|]. intros st' evs E. inversion E; subst.
           exact (Hnext' _ _ eq_refl).
        -- split; [|discriminate]. intro E. apply Hno'. now inversion E.
      * split; [|discriminate]. intro E. apply Hno. now inversion E.
    + split; [|discriminate]. intro E.
      apply (draw_no_index st (height i) (takes i)). rewrite Hdraw. now inversion E.
Qed.

Lemma menu_invariant_cursors st :
  menu_invariant path_exists expanduser py_str st -> cursors_in_range st.
Proof.
  assert (Hn : forall nf, network_frame_ok path_exists expanduser py_str nf ->
                          in_range (networks nf) (network_row nf)).
  { intros nf [nets [Hn [_ Hr]]]. rewrite Hn.
    exists (Z.of_nat (List.length nets)). split; [reflexivity | lia]. }
  assert (Hs : forall sf, server_frame_ok path_exists expanduser py_str sf ->
                          in_range (servers sf) (server_row sf)).
  { intros sf [srvs [Hs [_ Hr]]]. rewrite Hs.
    exists (Z.of_nat (List.length srvs)). split; [reflexivity | lia]. }
  assert (Hu : forall uf, user_frame_ok uf -> in_range (users uf) (user_row uf)).
  { intros uf [usrs [Hu Hr]]. rewrite Hu.
    exists (Z.of_nat (List.length usrs)). split; [reflexivity | lia]. }
  destruct st; cbn; intuition.
Qed.

(** X17: Once validation has returned no message and the inventory has at least
    one network, no sequence of keys, terminal heights and answers of the
    terminal makes [run] raise IndexError, and whenever the program waits
    for a key every cursor, the suspended ones included, indexes a row of
    its list. *)
Theorem validated_menu_never_indexes_out_of_range :
  forall items net nets inputs,
    lookup "networks" items = Some (JList (net :: nets)) ->
    validate_config path_exists expanduser py_str (JObj items) = Return [] ->
    run path_exists expanduser py_str (JObj items) inputs <> Raise IndexError
    /\ forall st evs,
         run path_exists expanduser py_str (JObj items) inputs
         = Return (Blocked st, evs) ->
         cursors_in_range st.
Proof.
  intros items net nets inputs Hnets Hval.
  pose proof (validated_networks_passed items _ Hnets Hval) as Hall.
  assert (Hinv : menu_invariant path_exists expanduser py_str
                   (NetworkList {| networks := JList (net :: nets);
                                   network_row := 0 |})).
  { exists (net :: nets). repeat split; try assumption; cbn [network_row List.length]; lia. }
  destruct (run_menu_safe inputs _ Hinv) as [Hno Hnext].
  unfold run. rewrite Hval. cbn [bind py_getitem]. rewrite Hnets. cbn [bind].
  destruct (run_menu expanduser py_str _ inputs) as [[st1 evs1]|e] eqn:Hrun;
    cbn [bind].
  - split; [discriminate|]. intros st evs E.
    apply menu_invariant_cursors.
    destruct st1; inversion E; subst; now apply Hnext with (evs := evs).
  - split; [|discriminate]. intro E. apply Hno. now inversion E.
Qed.

End Safety.

(** *** What a screen shows *)

Section Rows.

Variable expanduser : string -> option string.
Variable py_str : json -> string.

Lemma network_rows_shape :
  forall l t h cur idx rows,
    network_rows py_str t h cur idx l = Return rows ->
    List.length rows = Nat.min (List.length l) (Z.to_nat (h - 7 - idx))
    /\ forall k r, nth_error rows k = Some r ->
                   row_selected r = (idx + Z.of_nat k =? cur).
Proof.
  induction l as [|x l IH]; intros t h cur idx rows H; cbn [network_rows] in H.
  - inversion H; subst. split; [reflexivity|]. intros [|k] r Hk; discriminate.
  - destruct (Z.geb_spec (4 + idx) (h - 3)).
    + inversion H; subst. split; [cbn [List.length]; lia|].
      intros [|k] r Hk; discriminate.
    + split_result H. inversion H; subst.
      match goal with
      | E : network_rows _ _ _ _ _ l = Return _ |- _ =>
          destruct (IH _ _ _ _ _ E) as [Hlen Hsel]
      end.
      split; [cbn [List.length]; lia|].
      intros [|k] r Hk; cbn in Hk.
      * inversion Hk; subst. cbn. now rewrite Z.add_0_r.
      * rewrite (Hsel k r Hk). f_equal. lia.
Qed.

Lemma network_rows_prefix :
  forall l l' t h cur idx,
    firstn (Z.to_nat (h - 7 - idx)) l = firstn (Z.to_nat (h - 7 - idx)) l' ->
    network_rows py_str t h cur idx l = network_rows py_str t h cur idx l'.
Proof.
  induction l as [|x l IH]; intros l' t h cur idx Hpre.
  - destruct l' as [|x' l']; [reflexivity|]. cbn [network_rows].
    destruct (Z.geb_spec (4 + idx) (h - 3)); [reflexivity|].
    replace (Z.to_nat (h - 7 - idx)) with (S (Z.to_nat (h - 7 - (idx + 1)))) in Hpre
      by lia.
    rewrite firstn_nil in Hpre. discriminate.
  - cbn [network_rows].
    destruct (Z.geb_spec (4 + idx) (h - 3)).
    + destruct l'; cbn [network_rows]; [reflexivity|].
      destruct (Z.geb_spec (4 + idx) (h - 3)); [reflexivity | lia].
    + replace (Z.to_nat (h - 7 - idx)) with (S (Z.to_nat (h - 7 - (idx + 1)))) in Hpre
        by lia.
      destruct l' as [|x' l']; [discriminate|].
      cbn [firstn] in Hpre. inversion Hpre; subst x'.
      cbn [network_rows].
      destruct (Z.geb_spec (4 + idx) (h - 3)); [lia|].
      now rewrite (IH l' t h cur (idx + 1)).
Qed.

(** X18: The network screen prepares one row for each network that fits, the
    first [height - 7] of them and no more; the row at the cursor's index
    is the selected one, so with the cursor at or past [height - 7] no
    row of the screen is selected. *)
Theorem network_screen_shows_what_fits :
  forall nf nets h t v,
    networks nf = JList nets ->
    draw expanduser py_str (NetworkList nf) h t = Return (Some v) ->
    exists rows,
      v = Menu "SELECT NETWORK ZONE" rows "↑/↓: Navigate | ENTER: Select | Q: Quit"
      /\ List.length rows = Nat.min (List.length nets) (Z.to_nat (h - 7))
      /\ (forall k r, nth_error rows k = Some r ->
                      row_selected r = (Z.of_nat k =? network_row nf))
      /\ (h - 7 <= network_row nf ->
          Forall (fun r => row_selected r = false) rows).
Proof.
  intros nf nets h t v Hn H. cbn [draw] in H. rewrite Hn in H.
  cbn [py_iter bind] in H.
  destruct (network_rows py_str t h (network_row nf) 0 nets) as [rows|] eqn:Hrows;
    cbn [bind] in H; [|discriminate].
  inversion H; subst. exists rows.
  destruct (network_rows_shape _ _ _ _ _ _ Hrows) as [Hlen Hsel].
  split; [reflexivity|]. split; [rewrite Hlen; f_equal; f_equal; lia|].
  split.
  - intros k r Hk. now rewrite (Hsel k r Hk).
  - intro Hoff. apply Forall_forall. intros r Hin.
    apply In_nth_error in Hin. destruct Hin as [k Hk].
    rewrite (Hsel k r Hk).
    assert (k < List.length rows)%nat by (apply nth_error_Some; congruence).
    destruct (Z.eqb_spec (0 + Z.of_nat k) (network_row nf)); [lia | reflexivity].
Qed.

(** X19: Networks below the visible part of the screen are not read by a draw:
    two network lists that agree on their first [height - 7] entries give
    the same result, an exception included. *)
Theorem hidden_networks_are_not_read :
  forall nets nets' current_row h t,
    firstn (Z.to_nat (h - 7)) nets = firstn (Z.to_nat (h - 7)) nets' ->
    draw expanduser py_str
         (NetworkList {| networks := JList nets; network_row := current_row |}) h t
    = draw expanduser py_str
           (NetworkList {| networks := JList nets'; network_row := current_row |}) h t.
Proof.
  intros nets nets' current_row h t Hpre.
  cbn [draw networks network_row py_iter bind].
  rewrite (network_rows_prefix nets nets' t h current_row 0); [reflexivity|].
  now replace (h - 7 - 0) with (h - 7) by lia.
Qed.

Lemma server_rows_count :
  forall l t h cur idx rows,
    server_rows py_str t h cur idx l = Return rows ->
    List.length rows = Nat.min (List.length l) (Z.to_nat ((h - 6) / 3 - idx)).
Proof.
  induction l as [|x l IH]; intros t h cur idx rows H; cbn [server_rows] in H.
  - inversion H; subst. reflexivity.
  - destruct (Z.geb_spec (4 + idx * 3) (h - 4)).
    + inversion H; subst. cbn [List.length].
      assert ((h - 6) / 3 - idx <= 0) by (Z.div_mod_to_equations; lia). lia.
    + split_result H. inversion H; subst. cbn [List.length].
      match goal with
      | E : server_rows _ _ _ _ _ l = Return _ |- _ => rewrite (IH _ _ _ _ _ E)
      end.
      assert (1 <= (h - 6) / 3 - idx) by (Z.div_mod_to_equations; lia). lia.
Qed.

Lemma user_rows_count :
  forall l t h cur idx rows,
    user_rows expanduser py_str t h cur idx l = Return rows ->
    List.length rows = Nat.min (List.length l) (Z.to_nat ((h - 8) / 3 - idx)).
Proof.
  induction l as [|x l IH]; intros t h cur idx rows H; cbn [user_rows] in H.
  - inversion H; subst. reflexivity.
  - destruct (Z.geb_spec (6 + idx * 3) (h - 4)).
    + inversion H; subst. cbn [List.length].
      assert ((h - 8) / 3 - idx <= 0) by (Z.div_mod_to_equations; lia). lia.
    + split_result H. inversion H; subst. cbn [List.length].
      match goal with
      | E : user_rows _ _ _ _ _ _ l = Return _ |- _ => rewrite (IH _ _ _ _ _ E)
      end.
      assert (1 <= (h - 8) / 3 - idx) by (Z.div_mod_to_equations; lia). lia.
Qed.

(** X20: A server takes three lines from line 4 and a user three lines from line
    6, above a four-line margin: the server screen prepares
    min(len, (height - 6) / 3) rows and the user screen
    min(len, (height - 8) / 3) rows; there is no scrolling. *)
Theorem server_and_user_screens_show_what_fits :
  forall nf sf uf h t v,
    (forall srvs,
        servers sf = JList srvs ->
        draw expanduser py_str (ServerList nf sf) h t = Return (Some v) ->
        exists title rows footer,
          v = Menu title rows footer
          /\ List.length rows
             = Nat.min (List.length srvs) (Z.to_nat ((h - 6) / 3)))
    /\ (forall usrs,
          users uf = JList usrs ->
          draw expanduser py_str (UserList nf sf uf) h t = Return (Some v) ->
          exists title rows footer,
            v = Menu title rows footer
            /\ List.length rows
               = Nat.min (List.length usrs) (Z.to_nat ((h - 8) / 3))).
Proof.
  intros nf sf uf h t v. split.
  - intros srvs Hs H. cbn [draw] in H. rewrite Hs in H.
    destruct (py_getitem (network sf) "name"); cbn [bind py_iter] in H;
      [|discriminate].
    destruct (draw_header _) as [[]|]; cbn [bind] in H; [|discriminate].
    destruct (server_rows py_str t h (server_row sf) 0 srvs) as [rows|] eqn:Hrows;
      cbn [bind] in H; [|discriminate].
    inversion H; subst. do 3 eexists. split; [reflexivity|].
    rewrite (server_rows_count _ _ _ _ _ _ Hrows). f_equal. f_equal. lia.
  - intros usrs Hu H. cbn [draw] in H. rewrite Hu in H. cbn [bind py_iter] in H.
    destruct (draw_header _) as [[]|]; cbn [bind] in H; [|discriminate].
    destruct (except_curses _) as [[]|]; cbn [bind] in H; [|discriminate].
    destruct (user_rows expanduser py_str t h (user_row uf) 0 usrs) as [rows|] eqn:Hrows;
      cbn [bind] in H; [|discriminate].
    inversion H; subst. do 3 eexists. split; [reflexivity|].
    rewrite (user_rows_count _ _ _ _ _ _ Hrows). f_equal. f_equal. lia.
Qed.

End Rows.

(** *** More on keys *)

Section Moves.

Variable expanduser : string -> option string.
Variable py_str : json -> string.

(** X21: Q, q or ESC never raises and never starts a session, whatever the
    inventory holds: it leaves the program exactly one level up, in the
    caller's round with the caller's cursor: from the user list the
    server list, from the server list and from the no-servers branch the
    network list, from the network list the end of the program. *)
Theorem quit_goes_one_level_up :
  forall st q,
    is_quit q = true ->
    handle_key expanduser py_str st q
    = Return (match st with
              | NetworkList _ => Exit
              | NoServers nf _ => NetworkList nf
              | ServerList nf _ => NetworkList nf
              | UserList nf sf _ => ServerList nf sf
              | Exit => Exit
              end, []).
Proof.
  intros st q Hq.
  destruct (quit_is_no_other_key q Hq) as [Hup [Hdown Henter]].
  destruct st; cbn [handle_key];
    unfold network_key, server_key, user_key;
    try rewrite Hup, (moves_down_other_key _ _ _ Hdown), Henter, Hq;
    reflexivity.
Qed.

(** X22: With its cursors in range, a down key that moved the cursor of a list
    is undone by the next up key, and an up key that moved it by the next
    down key. *)
Theorem arrow_moves_undo_each_other :
  forall st st' evs,
    cursors_in_range st ->
    st' <> st ->
    level st' = level st ->
    (handle_key expanduser py_str st KEY_DOWN = Return (st', evs) ->
     handle_key expanduser py_str st' KEY_UP = Return (st, []))
    /\ (handle_key expanduser py_str st KEY_UP = Return (st', evs) ->
        handle_key expanduser py_str st' KEY_DOWN = Return (st, [])).
Proof.
  intros st st' evs Hin Hmoved Hlevel. split; intro H.
  - destruct st as [nf | nf net | nf sf | nf sf uf |]; cbn [handle_key] in H;
      try (inversion H; subst; first [contradiction | discriminate]).
    + destruct nf as [nets r]. destruct Hin as [len [Hlen Hr]]. cbn in Hlen, Hr.
      unfold network_key, moves_down in H. cbn in H. rewrite Hlen in H. cbn in H.
      destruct (Z.ltb_spec r (len - 1)); inversion H; subst; [|contradiction].
      cbn. unfold network_key. cbn.
      destruct (Z.gtb_spec (r + 1) 0); [|lia]. now rewrite Z.add_simpl_r.
    + destruct sf as [net srvs r]. destruct Hin as [_ [len [Hlen Hr]]].
      cbn in Hlen, Hr.
      unfold server_key, moves_down in H. cbn in H. rewrite Hlen in H. cbn in H.
      destruct (Z.ltb_spec r (len - 1)); inversion H; subst; [|contradiction].
      cbn. unfold server_key. cbn.
      destruct (Z.gtb_spec (r + 1) 0); [|lia]. now rewrite Z.add_simpl_r.
    + destruct uf as [inf usrs r]. destruct Hin as [_ [_ [len [Hlen Hr]]]].
      cbn in Hlen, Hr.
      unfold user_key, moves_down in H. cbn in H. rewrite Hlen in H. cbn in H.
      destruct (Z.ltb_spec r (len - 1)); inversion H; subst; [|contradiction].
      cbn. unfold user_key. cbn.
      destruct (Z.gtb_spec (r + 1) 0); [|lia]. now rewrite Z.add_simpl_r.
  - destruct st as [nf | nf net | nf sf | nf sf uf |]; cbn [handle_key] in H;
      try (inversion H; subst; first [contradiction | discriminate]).
    + destruct nf as [nets r]. destruct Hin as [len [Hlen Hr]]. cbn in Hlen, Hr.
      unfold network_key, moves_down in H. cbn in H.
      destruct (Z.gtb_spec r 0); inversion H; subst; [|contradiction].
      cbn. unfold network_key, moves_down. cbn. rewrite Hlen. cbn.
      destruct (Z.ltb_spec (r - 1) (len - 1)); [|lia]. now rewrite Z.sub_add.
    + destruct sf as [net srvs r]. destruct Hin as [_ [len [Hlen Hr]]].
      cbn in Hlen, Hr.
      unfold server_key, moves_down in H. cbn in H.
      destruct (Z.gtb_spec r 0); inversion H; subst; [|contradiction].
      cbn. unfold server_key, moves_down. cbn. rewrite Hlen. cbn.
      destruct (Z.ltb_spec (r - 1) (len - 1)); [|lia]. now rewrite Z.sub_add.
    + destruct uf as [inf usrs r]. destruct Hin as [_ [_ [len [Hlen Hr]]]].
      cbn in Hlen, Hr.
      unfold user_key, moves_down in H. cbn in H.
      destruct (Z.gtb_spec r 0); inversion H; subst; [|contradiction].
      cbn. unfold user_key, moves_down. cbn. rewrite Hlen. cbn.
      destruct (Z.ltb_spec (r - 1) (len - 1)); [|lia]. now rewrite Z.sub_add.
Qed.

End Moves.

(** *** Writes the terminal refuses, and values the screens cannot write *)












Section Terminal.

Variable path_exists : string -> option bool.
Variable expanduser : string -> option string.
Variable py_str : json -> string.























End Terminal.

Section Unwritten.

Variable path_exists : string -> option bool.
Variable expanduser : string -> option string.

(** X25: Validation does not look at a user's [description], and the
    user list writes it as it is stored.  The inventory whose one server
    is [{"ip": "10.0.0.5", "users": [{"username": "a", "description":
    null}, {"username": "b"}]}] is validated without a message and its
    network and server lists are drawn; the draw of the user list then
    hands [None] to [addstr] and ends the program with TypeError, on a
    terminal that takes the writes before it.  On a terminal that
    refuses them the row is left, and the program goes on. *)
Theorem null_description_stops_the_user_list :
  forall k,
    validate_config path_exists expanduser show
      (inventory [lab [undescribed_user_server]]) = Return []
    /\ (exists evs,
          run path_exists expanduser show (inventory [lab [undescribed_user_server]])
            (at_height 24 [ENTER; ENTER])
          = Return (Blocked (UserList (lab_of undescribed_user_server)
                               (servers_of undescribed_user_server)
                               undescribed_users), evs))
    /\ draw expanduser show
         (UserList (lab_of undescribed_user_server)
            (servers_of undescribed_user_server) undescribed_users) 24 roomy
       = Raise TypeError
    /\ run path_exists expanduser show (inventory [lab [undescribed_user_server]])
         (at_height 24 [ENTER; ENTER; k])
       = Raise TypeError
    /\ exists st evs,
         step expanduser show
           (UserList (lab_of undescribed_user_server)
              (servers_of undescribed_user_server) undescribed_users)
           {| height := 24; takes := cramped; key := k |}
         = Return (st, evs).
Proof.
  intro k. split; [reflexivity|]. split; [|split; [|split]].
  - eexists. reflexivity.
  - reflexivity.
  - reflexivity.
  - unfold step. cbn [height takes key].
    set (shown := draw expanduser show _ 24 cramped).
    vm_compute in shown. subst shown. cbn [bind handle_key].
    unfold user_key, moves_down. cbn [user_row users undescribed_users py_len bind].
    destruct (k =? KEY_UP), (k =? KEY_DOWN), (k =? ENTER), (is_quit k);
      do 2 eexists; reflexivity.
Qed.

(** X26: Validation asks a server for an [ip] and not for its type, and
    the server list measures it.  The inventory whose one server is
    [{"ip": 5, "username": "root"}] is validated without a message and
    its network list is drawn; the draw of the server list writes ["5"]
    and then evaluates [len(ip)], which ends the program with TypeError,
    on a terminal that takes the two writes before it.  On a terminal
    that refuses them the row is left, and the program goes on. *)
Theorem numbered_ip_stops_the_server_list :
  forall k,
    validate_config path_exists expanduser show
      (inventory [lab [numbered_ip_server]]) = Return []
    /\ (exists evs,
          run path_exists expanduser show (inventory [lab [numbered_ip_server]])
            (at_height 24 [ENTER])
          = Return (Blocked (ServerList (lab_of numbered_ip_server)
                               (servers_of numbered_ip_server)), evs))
    /\ draw expanduser show
         (ServerList (lab_of numbered_ip_server) (servers_of numbered_ip_server))
         24 roomy
       = Raise TypeError
    /\ run path_exists expanduser show (inventory [lab [numbered_ip_server]])
         (at_height 24 [ENTER; k])
       = Raise TypeError
    /\ exists st evs,
         step expanduser show
           (ServerList (lab_of numbered_ip_server) (servers_of numbered_ip_server))
           {| height := 24; takes := cramped; key := k |}
         = Return (st, evs).
Proof.
  intro k. split; [reflexivity|]. split; [|split; [|split]].
  - eexists. reflexivity.
  - reflexivity.
  - reflexivity.
  - unfold step. cbn [height takes key].
    set (shown := draw expanduser show _ 24 cramped).
    vm_compute in shown. subst shown. cbn [bind handle_key].
    unfold server_key, moves_down.
    cbn [server_row servers servers_of py_len bind].
    destruct (k =? KEY_UP), (k =? KEY_DOWN), (k =? ENTER), (is_quit k);
      do 2 eexists; reflexivity.
Qed.

End Unwritten.

(** *** Messages and the place they name *)

Lemma string_append_assoc (a b c : string) :
  ((a ++ b) ++ c)%string = (a ++ (b ++ c))%string.
Proof.
  induction a as [|x a IH]; cbn; [reflexivity | now rewrite IH].
Qed.

Lemma str_of_nat_injective n m : str_of_nat n = str_of_nat m -> n = m.
Proof.
  unfold str_of_nat. intro H.
  assert (Hu : Nat.to_uint n = Nat.to_uint m).
  { apply (f_equal NilEmpty.uint_of_string) in H.
    rewrite !NilEmpty.usu in H. now inversion H. }
  apply (f_equal Nat.of_uint) in Hu.
  now rewrite !DecimalNat.Unsigned.of_to in Hu.
Qed.

Lemma str_of_nat_bracket_free n : bracket_free (str_of_nat n) = true.
Proof.
  unfold str_of_nat. generalize (Nat.to_uint n). intro d.
  induction d; cbn; auto.
Qed.

Lemma split_at_bracket :
  forall s t r r',
    bracket_free s = true -> bracket_free t = true ->
    (s ++ String "]" r)%string = (t ++ String "]" r')%string ->
    s = t /\ r = r'.
Proof.
  induction s as [|c s IH]; intros [|c' t] r r' Hs Ht H; cbn in *.
  - inversion H. now split.
  - inversion H; subst. cbn in Ht. discriminate.
  - inversion H; subst. cbn in Hs. discriminate.
  - inversion H; subst.
    apply andb_prop in Hs. apply andb_prop in Ht.
    destruct (IH t r r' (proj2 Hs) (proj2 Ht) H2) as [-> ->]. now split.
Qed.

Lemma net_prefix_names_its_network idx idx' r r' :
  (net_prefix idx ++ r)%string = (net_prefix idx' ++ r')%string ->
  idx = idx' /\ r = r'.
Proof.
  unfold net_prefix. rewrite !string_append_assoc. intro H.
  apply append_cancel in H. cbn [append] in H.
  apply split_at_bracket in H; try apply str_of_nat_bracket_free.
  destruct H as [Hi Hr]. split; [now apply str_of_nat_injective | exact Hr].
Qed.

Lemma srv_prefix_names_its_server idx srv_idx idx' srv_idx' r r' :
  (srv_prefix idx srv_idx ++ r)%string = (srv_prefix idx' srv_idx' ++ r')%string ->
  idx = idx' /\ srv_idx = srv_idx' /\ r = r'.
Proof.
  unfold srv_prefix. rewrite !string_append_assoc. intro H.
  apply net_prefix_names_its_network in H. destruct H as [-> H].
  apply append_cancel in H. cbn [append] in H.
  apply split_at_bracket in H; try apply str_of_nat_bracket_free.
  destruct H as [Hj Hr]. repeat split; [now apply str_of_nat_injective | exact Hr].
Qed.

(** X23: A message names its place without ambiguity: two texts that start with
    the prefixes of two servers, or of two users, are equal only when the
    indices are the same and the rest of the text is; so the message about
    one server is never the message about another. *)
Theorem messages_name_their_place :
  (forall idx srv_idx idx' srv_idx' r r',
      (srv_prefix idx srv_idx ++ r)%string = (srv_prefix idx' srv_idx' ++ r')%string ->
      idx = idx' /\ srv_idx = srv_idx' /\ r = r')
  /\ (forall idx srv_idx user_idx idx' srv_idx' user_idx' r r',
        (user_prefix idx srv_idx user_idx ++ r)%string
        = (user_prefix idx' srv_idx' user_idx' ++ r')%string ->
        idx = idx' /\ srv_idx = srv_idx' /\ user_idx = user_idx' /\ r = r')
  /\ (forall idx srv_idx idx' srv_idx',
        both_msg idx srv_idx = both_msg idx' srv_idx'
        \/ neither_msg idx srv_idx = neither_msg idx' srv_idx'
        \/ missing_field_msg (srv_prefix idx srv_idx) "ip"
           = missing_field_msg (srv_prefix idx' srv_idx') "ip" ->
        idx = idx' /\ srv_idx = srv_idx').
Proof.
  split; [|split].
  - intros. now apply srv_prefix_names_its_server.
  - intros idx srv_idx user_idx idx' srv_idx' user_idx' r r' H.
    unfold user_prefix in H. rewrite !string_append_assoc in H.
    apply srv_prefix_names_its_server in H. destruct H as [-> [-> H]].
    apply append_cancel in H. cbn [append] in H.
    apply split_at_bracket in H; try apply str_of_nat_bracket_free.
    destruct H as [Hk Hr]. repeat split; [now apply str_of_nat_injective | exact Hr].
  - intros idx srv_idx idx' srv_idx' [H | [H | H]];
      unfold both_msg, neither_msg, missing_field_msg in H;
      apply srv_prefix_names_its_server in H; now destruct H as [-> [-> _]].
Qed.

(** *** The further properties at sample inputs *)

Lemma missing_network_field_is_reported_witness :
  In (missing_field_msg (net_prefix 0) "name")
     ["Network [0]: Missing required field 'name'"%string].
Proof.
  exact (missing_network_field_is_reported every_key_on_disk home_is_root show
           (inventory [nameless_network]) 0%nat nameless_network "name" _
           eq_refl (or_introl eq_refl) eq_refl eq_refl).
Defined.

Lemma missing_ip_is_reported_witness :
  In (missing_field_msg (srv_prefix 0 0) "ip")
     ["Network [0] Server [0]: Missing required field 'ip'"%string;
      "Network [0] Server [0]: Invalid port '22' (must be 1-65535)"%string].
Proof.
  exact (missing_ip_is_reported every_key_on_disk home_is_root show
           (inventory [lab [string_port_server]]) 0%nat 0%nat string_port_server _
           eq_refl eq_refl eq_refl).
Defined.

Lemma missing_username_is_reported_witness :
  In (missing_field_msg (user_prefix 0 0 0) "username")
     ["Network [0] Server [0] User [0]: Missing required field 'username'"%string;
      "Network [0] Server [0] User [0]: SSH key not found at '/nonexistent'"%string].
Proof.
  exact (missing_username_is_reported no_key_on_disk home_is_root show
           (inventory [lab [nameless_user_server]]) 0%nat 0%nat 0%nat nameless_user _
           eq_refl eq_refl eq_refl).
Defined.

Lemma invalid_port_is_reported_witness :
  In (invalid_port_msg show 0 0 (JStr "22"))
     ["Network [0] Server [0]: Missing required field 'ip'"%string;
      "Network [0] Server [0]: Invalid port '22' (must be 1-65535)"%string].
Proof.
  exact (invalid_port_is_reported every_key_on_disk home_is_root show
           (inventory [lab [string_port_server]]) 0%nat 0%nat
           [("username"%string, JStr "root"); ("port"%string, JStr "22")]
           (JStr "22") _ eq_refl eq_refl eq_refl eq_refl).
Defined.

Lemma bad_users_field_is_reported_witness :
  In (users_empty_msg 0 0)
     ["Network [0] Server [0]: 'users' array cannot be empty"%string].
Proof.
  exact (bad_users_field_is_reported every_key_on_disk home_is_root show
           (inventory [lab [no_user_server]]) 0%nat 0%nat
           [("ip"%string, JStr "10.0.0.5"); ("users"%string, JList [])]
           (JList []) _ eq_refl eq_refl eq_refl).
Defined.

Lemma missing_key_file_is_reported_witness :
  In (key_not_found_msg (srv_prefix 0 0) "/nonexistent")
     ["Network [0] Server [0]: SSH key not found at '/nonexistent'"%string].
Proof.
  refine (proj1 (missing_key_file_is_reported no_key_on_disk home_is_root show
                   (inventory [lab [lost_key_server]]) _ "/nonexistent"
                   "/nonexistent" eq_refl _ eq_refl eq_refl) 0%nat 0%nat
                [("ip"%string, JStr "10.0.0.5"); ("username"%string, JStr "root");
                 ("key_path"%string, JStr "/nonexistent")]
                eq_refl eq_refl eq_refl).
  discriminate.
Defined.

Lemma validated_server_is_checked_witness :
  server_checked every_key_on_disk home_is_root
    [("ip"%string, JStr "10.0.0.5"); ("users"%string, JList [alice; bob])].
Proof.
  exact (validated_server_is_checked every_key_on_disk home_is_root show
           (inventory [lab [legacy_server; two_user_server]]) 0%nat 1%nat _
           eq_refl eq_refl).
Defined.

Lemma validated_network_is_a_record_witness :
  exists fields srvs,
    lab [legacy_server; two_user_server] = JObj fields
    /\ lookup "name" fields <> None
    /\ lookup "servers" fields = Some (JList srvs).
Proof.
  exact (validated_network_is_a_record every_key_on_disk home_is_root show
           (inventory [lab [legacy_server; two_user_server]]) 0%nat _
           eq_refl eq_refl).
Defined.

Lemma lab_meets_the_schema :
  Forall (network_accepted every_key_on_disk home_is_root) [lab [legacy_server; two_user_server]].
Proof.
  constructor; [|constructor].
  do 2 eexists. split; [reflexivity|]. split; [discriminate|].
  split; [reflexivity|].
  constructor; [|constructor; [|constructor]].
  - eexists. split; [reflexivity|]. split.
    + split; [discriminate|]. split; [reflexivity|].
      left. repeat split. discriminate.
    + intros usrs H. discriminate.
  - eexists. split; [reflexivity|]. split.
    + split; [discriminate|]. split; [reflexivity|].
      right. split; [reflexivity|]. do 2 eexists. split; [reflexivity|].
      repeat constructor; intros items H; inversion H; reflexivity.
    + intros usrs H. inversion H. reflexivity.
Qed.

Lemma schema_is_accepted_witness :
  validate_config every_key_on_disk home_is_root show
    (inventory [lab [legacy_server; two_user_server]]) = Return [].
Proof.
  exact (schema_is_accepted every_key_on_disk home_is_root show lab_items _ eq_refl
           lab_meets_the_schema).
Defined.

Lemma ssh_command_shape_witness :
  exists username key_path,
    py_getitem (keyed alice) "username" = Return username
    /\ py_get (keyed alice) "key_path" JNull = Return key_path
    /\ ((truthy key_path = false
         /\ ["ssh"; "-p"; "22"; "-i"; "/root/.ssh/id_ed25519"; "a@10.0.0.5"]%string
            = ["ssh"; "-p"; show (JInt 22);
               (show username ++ "@" ++ show (JStr "10.0.0.5"))%string]%string)
        \/ (exists s expanded,
              key_path = JStr s /\ s <> EmptyString
              /\ home_is_root s = Some expanded
              /\ ["ssh"; "-p"; "22"; "-i"; "/root/.ssh/id_ed25519";
                  "a@10.0.0.5"]%string
                 = ["ssh"; "-p"; show (JInt 22); "-i"; expanded;
                    (show username ++ "@" ++ show (JStr "10.0.0.5"))%string]%string)).
Proof.
  exact (ssh_command_shape home_is_root show (info lab_users) (keyed alice) _ eq_refl).
Defined.

Lemma validated_server_connects_witness :
  exists inf u usrs,
    normalize_server_format two_user_server = Return (inf, JList (u :: usrs))
    /\ port inf = JInt 22
    /\ forall user,
         In user (u :: usrs) -> is_record user = true ->
         exists cmd, connect_ssh home_is_root show inf user = Return cmd.
Proof.
  exact (validated_server_connects every_key_on_disk home_is_root show
           (inventory [lab [legacy_server; two_user_server]]) 0%nat 1%nat _
           eq_refl eq_refl).
Defined.

Lemma unbound_key_changes_nothing_witness :
  handle_key home_is_root show (ServerList lab_frame (lab_servers 1)) 65
  = Return (ServerList lab_frame (lab_servers 1), []).
Proof.
  exact (unbound_key_changes_nothing home_is_root show
           (ServerList lab_frame (lab_servers 1)) 65 eq_refl).
Defined.

Lemma session_only_on_confirm_witness :
  [Connecting (info lab_users) bob ["ssh"; "-p"; "22"; "b@10.0.0.5"]%string] = []
  \/ (ENTER = ENTER
      /\ UserList lab_frame (lab_servers 1)
           {| info := info lab_users; users := users lab_users; user_row := 1 |}
         = UserList lab_frame (lab_servers 1)
             {| info := info lab_users; users := users lab_users; user_row := 1 |}
      /\ exists inf user cmd,
           [Connecting (info lab_users) bob ["ssh"; "-p"; "22"; "b@10.0.0.5"]%string]
           = [Connecting inf user cmd]
           /\ connect_ssh home_is_root show inf user = Return cmd).
Proof.
  exact (session_only_on_confirm home_is_root show
           (UserList lab_frame (lab_servers 1)
              {| info := info lab_users; users := users lab_users; user_row := 1 |})
           ENTER
           (UserList lab_frame (lab_servers 1)
              {| info := info lab_users; users := users lab_users; user_row := 1 |})
           [Connecting (info lab_users) bob ["ssh"; "-p"; "22"; "b@10.0.0.5"]%string]
           eq_refl).
Defined.

Lemma back_undoes_confirm_witness :
  @nil event = []
  /\ handle_key home_is_root show (UserList lab_frame (lab_servers 1) lab_users) 27
     = Return (ServerList lab_frame (lab_servers 1), []).
Proof.
  refine (back_undoes_confirm home_is_root show
            (ServerList lab_frame (lab_servers 1))
            (UserList lab_frame (lab_servers 1) lab_users) [] 27 eq_refl _ eq_refl).
  cbn. lia.
Defined.

Lemma validated_menu_never_indexes_out_of_range_witness :
  run every_key_on_disk home_is_root show (JObj lab_items) lab_walk
  <> Raise IndexError.
Proof.
  exact (proj1 (validated_menu_never_indexes_out_of_range
                  every_key_on_disk home_is_root show lab_items _ [] lab_walk
                  eq_refl eq_refl)).
Defined.

Lemma network_screen_shows_what_fits_witness :
  exists rows,
    Menu "SELECT NETWORK ZONE"
      [NetworkRow true "lab            " "N/A               " 2]
      "↑/↓: Navigate | ENTER: Select | Q: Quit"
    = Menu "SELECT NETWORK ZONE" rows "↑/↓: Navigate | ENTER: Select | Q: Quit"
    /\ List.length rows = Nat.min 3 (Z.to_nat (8 - 7))
    /\ (forall k r, nth_error rows k = Some r ->
                    row_selected r = (Z.of_nat k =? 0))
    /\ (8 - 7 <= 0 -> Forall (fun r => row_selected r = false) rows).
Proof.
  exact (network_screen_shows_what_fits home_is_root show
           {| networks := JList [lab [legacy_server; two_user_server];
                                 nameless_network; JInt 7];
              network_row := 0 |} _ 8 roomy _ eq_refl eq_refl).
Defined.

Lemma hidden_networks_are_not_read_witness :
  draw home_is_root show
       (NetworkList {| networks := JList [lab []; nameless_network; JInt 7];
                       network_row := 0 |}) 8 roomy
  = draw home_is_root show
         (NetworkList {| networks := JList [lab []]; network_row := 0 |}) 8 roomy.
Proof.
  exact (hidden_networks_are_not_read home_is_root show
           [lab []; nameless_network; JInt 7] [lab []] 0 8 roomy eq_refl).
Defined.

Lemma server_and_user_screens_show_what_fits_witness :
  exists title rows footer,
    Menu "SELECT USER - 10.0.0.5"
      [UserRow true (JStr "a") (JStr "No description") PASSWORD None]
      "↑/↓: Navigate | ENTER: Connect | Q: Back"
    = Menu title rows footer
    /\ List.length rows = Nat.min 2 (Z.to_nat ((11 - 8) / 3)).
Proof.
  exact (proj2 (server_and_user_screens_show_what_fits home_is_root show
                  lab_frame (lab_servers 1) lab_users 11 roomy _)
               [alice; bob] eq_refl eq_refl).
Defined.

Lemma quit_goes_one_level_up_witness :
  handle_key home_is_root show (UserList lab_frame (lab_servers 1) lab_users) 113
  = Return (ServerList lab_frame (lab_servers 1), []).
Proof.
  exact (quit_goes_one_level_up home_is_root show
           (UserList lab_frame (lab_servers 1) lab_users) 113 eq_refl).
Defined.

Lemma arrow_moves_undo_each_other_witness :
  handle_key home_is_root show (ServerList lab_frame (lab_servers (0 + 1))) KEY_UP
  = Return (ServerList lab_frame (lab_servers 0), []).
Proof.
  refine (proj1 (arrow_moves_undo_each_other home_is_root show
                   (ServerList lab_frame (lab_servers 0))
                   (ServerList lab_frame (lab_servers (0 + 1))) [] _ _ eq_refl)
                eq_refl).
  - split; [exists 1 | exists 2]; (split; [reflexivity | cbn; lia]).
  - discriminate.
Defined.
